(** * graphql_server: the HTTP-to-GraphQL request pipeline

    A shallow embedding of [graphql_server/__init__.py]: parameter
    extraction, the per-item request executor, the batch orchestrator
    [run_http_query] and the result encoder [encode_execution_results].

    The GraphQL engine ([parse], [get_operation_ast], [validate], [execute],
    [format_error]) and Python's [json] module are libraries outside the
    package; they are taken as interfaces ([GraphQLEngine], [PyLib]).
    Module [Json] gives [json.dumps] and [json.loads] on the values [pyval]
    covers, for the statements that depend on what the JSON text is.
    Every engine call made by the package is recorded in a trace, so that
    statements such as "before any engine call" can be written down. *)

From Stdlib Require Import String Ascii List ZArith Bool Lia.
From Stdlib Require DecimalPos DecimalZ.
Import ListNotations.
Local Open Scope string_scope.
Local Open Scope list_scope.
Set Warnings "-register-all".

(** ** Python values *)

(** The JSON-shaped fragment of Python values that travels through the
    package, plus tuples ([zip] produces them). *)
Inductive pyval : Type :=
| PNone
| PBool (b : bool)
| PInt (n : Z)
| PStr (s : string)
| PList (l : list pyval)
| PTuple (l : list pyval)
| PDict (d : list (string * pyval)).

Definition dict := list (string * pyval).

(** Induction on values that reaches inside lists, tuples and mappings. *)
Section PyvalInduction.
Variable P : pyval -> Prop.
Hypothesis HNone : P PNone.
Hypothesis HBool : forall b, P (PBool b).
Hypothesis HInt : forall n, P (PInt n).
Hypothesis HStr : forall s, P (PStr s).
Hypothesis HList : forall l, Forall P l -> P (PList l).
Hypothesis HTuple : forall l, Forall P l -> P (PTuple l).
Hypothesis HDict : forall d, Forall (fun kv => P (snd kv)) d -> P (PDict d).

Fixpoint pyval_nested_ind (v : pyval) : P v :=
  match v with
  | PNone => HNone
  | PBool b => HBool b
  | PInt n => HInt n
  | PStr s => HStr s
  | PList l =>
      HList l ((fix go (l : list pyval) : Forall P l :=
                  match l with
                  | [] => Forall_nil P
                  | x :: r => Forall_cons x (pyval_nested_ind x) (go r)
                  end) l)
  | PTuple l =>
      HTuple l ((fix go (l : list pyval) : Forall P l :=
                   match l with
                   | [] => Forall_nil P
                   | x :: r => Forall_cons x (pyval_nested_ind x) (go r)
                   end) l)
  | PDict d =>
      HDict d ((fix go (d : list (string * pyval))
                  : Forall (fun kv => P (snd kv)) d :=
                  match d with
                  | [] => Forall_nil _
                  | kv :: r => Forall_cons kv (pyval_nested_ind (snd kv)) (go r)
                  end) d)
  end.
End PyvalInduction.

(** [bool(v)] *)
Definition truthy (v : pyval) : bool :=
  match v with
  | PNone => false
  | PBool b => b
  | PInt n => negb (n =? 0)%Z
  | PStr s => negb (s =? "")
  | PList l => match l with [] => false | _ => true end
  | PTuple l => match l with [] => false | _ => true end
  | PDict d => match d with [] => false | _ => true end
  end.

(** [a or b] *)
Definition py_or (a b : pyval) : pyval := if truthy a then a else b.

(** [d.get(k)]: the first binding of [k], [None] when there is none. *)
Fixpoint dict_get (d : dict) (k : string) : pyval :=
  match d with
  | [] => PNone
  | (k', v) :: d' => if k' =? k then v else dict_get d' k
  end.

Definition is_str (v : pyval) : bool :=
  match v with PStr _ => true | _ => false end.
Definition is_list (v : pyval) : bool :=
  match v with PList _ => true | _ => false end.
Definition is_dict (v : pyval) : bool :=
  match v with PDict _ => true | _ => false end.

(** ** Exceptions *)

(** [HttpQueryError(status_code, message, headers=None)] of
    [graphql_server.error], and the built-in exceptions the package can
    run into. *)
Inductive exn : Type :=
| HttpQueryError (status_code : Z) (message : string)
                 (headers : option (list (string * string)))
| NameError (name : string)
| AttributeError (attr : string)
| ValueError (msg : string).

(** The exception classes [get_response] may be asked to catch. *)
Inductive exc_class : Type := ClsHttpQueryError | ClsSkipException.

(** [isinstance(e, cls)]; nothing in the package raises [SkipException]. *)
Definition isinstance_exn (e : exn) (cls : exc_class) : bool :=
  match cls, e with
  | ClsHttpQueryError, HttpQueryError _ _ _ => true
  | _, _ => false
  end.

Inductive completion (A : Type) : Type :=
| Ok (a : A)
| Raise (e : exn).
Arguments Ok {A} a.
Arguments Raise {A} e.

Definition rbind {A B} (r : completion A) (f : A -> completion B) : completion B :=
  match r with Ok a => f a | Raise e => Raise e end.

(** A list comprehension whose body may raise: left to right, stopping at
    the first exception. *)
Fixpoint rmap {A B} (f : A -> completion B) (l : list A) : completion (list B) :=
  match l with
  | [] => Ok []
  | x :: l' => rbind (f x) (fun y => rbind (rmap f l') (fun ys => Ok (y :: ys)))
  end.

(** ** The engine and library interfaces *)

Inductive OperationType : Type := QUERY | MUTATION | SUBSCRIPTION.

(** [OperationType.value] *)
Definition value (o : OperationType) : string :=
  match o with
  | QUERY => "query"
  | MUTATION => "mutation"
  | SUBSCRIPTION => "subscription"
  end.

(** What [parse(query)] can do: return a document, raise a [GraphQLError],
    or raise any other exception (kept as its [str]). *)
Inductive parse_outcome (D E : Type) : Type :=
| Parsed (document : D)
| ParseGraphQLError (e : E)
| ParseException (str_e : string).
Arguments Parsed {D E} document.
Arguments ParseGraphQLError {D E} e.
Arguments ParseException {D E} str_e.

(** [ExecutionResult(data, errors)] *)
Record ExecutionResult (E : Type) : Type := mkExecutionResult {
  data : pyval;
  errors : option (list E)
}.
Arguments mkExecutionResult {E} data errors.
Arguments data {E} e.
Arguments errors {E} e.

(** The engine, as the package calls it.  [validate], [execute] and
    [get_operation_ast] are described where they return; an exception of
    the engine's own (a [TypeError] of [execute], say) is not an
    [HttpQueryError] and lies outside [exn], so what is stated about
    exceptions concerns the ones the package raises. *)
Class GraphQLEngine : Type := {
  GraphQLSchema : Type;
  Document : Type;
  OperationDefinitionNode : Type;
  GraphQLError : Type;
  parse : pyval -> parse_outcome Document GraphQLError;
  (** [GraphQLError(str(e), original_error=e)] *)
  GraphQLError_of_exception : string -> GraphQLError;
  get_operation_ast : Document -> pyval -> option OperationDefinitionNode;
  operation : OperationDefinitionNode -> OperationType;
  validate : GraphQLSchema -> Document -> list GraphQLError;
  execute : GraphQLSchema -> Document -> pyval -> pyval -> ExecutionResult GraphQLError;
  format_error_default : GraphQLError -> pyval
}.

Class PyLib : Type := {
  (** [json.loads(s)], [None] when it raises *)
  json_loads : string -> option pyval;
  (** [json.dumps(v, indent=.., separators=(item, key))] *)
  json_dumps : option nat -> string * string -> pyval -> string;
  (** [str(v)], as used by [str.format] *)
  py_str : pyval -> string
}.

(** ** Computations that call the engine *)

Section Engine.
Context {E : GraphQLEngine} {L : PyLib}.

Inductive engine_call : Type :=
| CallParse (query : pyval)
| CallGetOperationAst (document : Document) (operation_name : pyval)
| CallValidate (schema : GraphQLSchema) (document : Document)
| CallExecute (schema : GraphQLSchema) (document : Document)
              (variable_values operation_name : pyval).

(** A computation: the engine calls it made, in order, and how it ended. *)
Definition M (A : Type) : Type := (list engine_call * completion A)%type.

Definition ret {A} (a : A) : M A := ([], Ok a).
Definition raise {A} (e : exn) : M A := ([], Raise e).
Definition call (c : engine_call) : M unit := ([c], Ok tt).
Definition lift {A} (r : completion A) : M A := ([], r).

Definition bind {A B} (m : M A) (f : A -> M B) : M B :=
  match snd m with
  | Ok a => (fst m ++ fst (f a), snd (f a))
  | Raise e => (fst m, Raise e)
  end.

(** [try: m except cls: h] *)
Definition try_except {A} (m : M A) (cls : exc_class) (h : M A) : M A :=
  match snd m with
  | Ok a => m
  | Raise e => if isinstance_exn e cls then (fst m ++ fst h, snd h) else m
  end.

Fixpoint mapM {A B} (f : A -> M B) (l : list A) : M (list B) :=
  match l with
  | [] => ret []
  | x :: l' => bind (f x) (fun y => bind (mapM f l') (fun ys => ret (y :: ys)))
  end.

Definition trace {A} (m : M A) : list engine_call := fst m.
Definition outcome {A} (m : M A) : completion A := snd m.

End Engine.

Notation "x <- m ;; k" := (bind m (fun x => k))
  (at level 61, m at next level, right associativity).
Notation "m ;;; k" := (bind m (fun _ => k))
  (at level 61, right associativity).

(** ** The package *)

Section Package.
Context {E : GraphQLEngine} {L : PyLib}.

(** [GraphQLParams = namedtuple("GraphQLParams", "query,variables,operation_name")] *)
Record GraphQLParams : Type := mkGraphQLParams {
  query : pyval;
  variables : pyval;
  operation_name : pyval
}.

(** [GraphQLResponse = namedtuple("GraphQLResponse", "result,status_code")] *)
Record GraphQLResponse : Type := mkGraphQLResponse {
  result : pyval;
  status_code : Z
}.

Definition ExecResult : Type := ExecutionResult GraphQLError.

(** [json_encode(data, pretty=False)] *)
Definition json_encode (data : pyval) (pretty : bool) : string :=
  if negb pretty then json_dumps None (",", ":") data
  else json_dumps (Some 2) (",", ": ") data.

(** [load_json_variables(variables)] *)
Definition load_json_variables (variables : pyval) : completion pyval :=
  if truthy variables && is_str variables then
    match variables with
    | PStr s =>
        match json_loads s with
        | Some v => Ok v
        | None => Raise (HttpQueryError 400 "Variables are invalid JSON." None)
        end
    | _ => Ok variables
    end
  else Ok variables.

(** [load_json_body(data)] *)
Definition load_json_body (data : string) : completion pyval :=
  match json_loads data with
  | Some v => Ok v
  | None => Raise (HttpQueryError 400 "POST body sent invalid JSON." None)
  end.

(** [entry.get(key)]: only mappings have a [get]. *)
Definition py_get (entry : pyval) (key : string) : completion pyval :=
  match entry with
  | PDict d => Ok (dict_get d key)
  | _ => Raise (AttributeError "get")
  end.

(** [get_graphql_params(data, query_data)] *)
Definition get_graphql_params (data : pyval) (query_data : dict)
  : completion GraphQLParams :=
  rbind (py_get data "query") (fun q =>
  let query := py_or q (dict_get query_data "query") in
  rbind (py_get data "variables") (fun v =>
  let variables := py_or v (dict_get query_data "variables") in
  rbind (py_get data "operationName") (fun o =>
  let operation_name := py_or o (dict_get query_data "operationName") in
  rbind (load_json_variables variables) (fun vars =>
  Ok (mkGraphQLParams query vars operation_name))))).

(** [bool(execution_result.errors)] *)
Definition has_errors (r : ExecResult) : bool :=
  match errors r with
  | Some (_ :: _) => true
  | _ => false
  end.

Definition errors_list (r : ExecResult) : list GraphQLError :=
  match errors r with Some l => l | None => [] end.

(** [execute_graphql_request(schema, params, allow_only_query)] *)
Definition execute_graphql_request (schema : GraphQLSchema)
    (params : GraphQLParams) (allow_only_query : bool) : M ExecResult :=
  if negb (truthy (query params)) then
    raise (HttpQueryError 400 "Must provide query string." None)
  else
    call (CallParse (query params)) ;;;
    match parse (query params) with
    | ParseGraphQLError e => ret (mkExecutionResult PNone (Some [e]))
    | ParseException str_e =>
        let e := GraphQLError_of_exception str_e in
        ret (mkExecutionResult PNone (Some [e]))
    | Parsed document =>
        (if allow_only_query then
           call (CallGetOperationAst document (operation_name params)) ;;;
           match get_operation_ast document (operation_name params) with
           | Some operation_ast =>
               if negb (value (operation operation_ast) =? "query") then
                 raise (HttpQueryError 405
                          ("Can only perform a "
                             ++ value (operation operation_ast)
                             ++ " operation from a POST request.")
                          (Some [("Allow", "POST")]))
               else ret tt
           | None => ret tt
           end
         else ret tt) ;;;
        call (CallValidate schema document) ;;;
        let validation_errors := validate schema document in
        match validation_errors with
        | _ :: _ => ret (mkExecutionResult PNone (Some validation_errors))
        | [] =>
            call (CallExecute schema document
                    (variables params) (operation_name params)) ;;;
            ret (execute schema document
                   (variables params) (operation_name params))
        end
    end.

(** [get_response(schema, params, catch, allow_only_query)] *)
Definition get_response (schema : GraphQLSchema) (params : GraphQLParams)
    (catch : exc_class) (allow_only_query : bool) : M (option ExecResult) :=
  try_except
    (execution_result <- execute_graphql_request schema params allow_only_query ;;
     ret (Some execution_result))
    catch
    (ret None).

(** [format_execution_result(execution_result, format_error)].

    The local [format_errors] is bound only in the branch taken when no
    formatter was passed; the comprehension reads it in both cases. *)
Definition format_execution_result (execution_result : option ExecResult)
    (format_error : option (GraphQLError -> pyval)) : completion GraphQLResponse :=
  let status_code := 200%Z in
  rbind
    (match execution_result with
     | Some er =>
         if has_errors er then
           let format_errors : option (GraphQLError -> pyval) :=
             match format_error with
             | None => Some format_error_default
             | Some _ => None
             end in
           match format_errors with
           | Some f => Ok (PDict [("errors", PList (map f (errors_list er)))])
           | None => Raise (NameError "format_errors")
           end
         else Ok (PDict [("data", data er)])
     | None => Ok PNone
     end)
    (fun response => Ok (mkGraphQLResponse response status_code)).

(** [max(status_codes)] over a non-empty tuple *)
Definition py_max (x : Z) (xs : list Z) : Z := fold_left Z.max xs x.

(** [encode_execution_results(execution_results, format_error, is_batch, encode)] *)
Definition encode_execution_results {R : Type}
    (execution_results : list (option ExecResult))
    (format_error : option (GraphQLError -> pyval))
    (is_batch : bool) (encode : pyval -> R) : completion (R * Z) :=
  rbind
    (rmap (fun execution_result =>
             format_execution_result execution_result format_error)
          execution_results)
    (fun responses =>
       match responses with
       | [] => Raise (ValueError "not enough values to unpack (expected 2, got 0)")
       | r0 :: rs =>
           let result := map result (r0 :: rs) in
           let status_codes := map status_code (r0 :: rs) in
           let status_code := py_max (status_code r0) (map status_code rs) in
           let result := if negb is_batch then nth 0 result PNone
                         else PTuple result in
           Ok (encode result, status_code)
       end).

(** [request_method in ("get", "post")] *)
Definition method_supported (request_method : string) : bool :=
  (request_method =? "get") || (request_method =? "post").

(** [run_http_query(schema, request_method, data, query_data,
                    batch_enabled, catch)] *)
Definition run_http_query (schema : GraphQLSchema) (request_method : string)
    (data : pyval) (query_data : option dict) (batch_enabled catch : bool)
  : M (list (option ExecResult) * list GraphQLParams) :=
  if negb (method_supported request_method) then
    raise (HttpQueryError 405 "GraphQL only supports GET and POST requests."
             (Some [("Allow", "GET, POST")]))
  else
    let catch_exc := if catch then ClsHttpQueryError else ClsSkipException in
    let is_batch := is_list data in
    let is_get_request := request_method =? "get" in
    let allow_only_query := is_get_request in
    data <- (if negb is_batch then
               if negb (is_dict data) then
                 raise (HttpQueryError 400
                          ("GraphQL params should be a dict. Received "
                             ++ py_str data ++ ".") None)
               else ret [data]
             else if negb batch_enabled then
               raise (HttpQueryError 400
                        "Batch GraphQL requests are not enabled." None)
             else ret (match data with PList l => l | _ => [] end)) ;;
    match data with
    | [] => raise (HttpQueryError 400
                     "Received an empty list in the batch request." None)
    | _ :: _ =>
        let extra_data : dict :=
          if negb is_batch then
            match query_data with
            | Some (b :: d) => b :: d
            | _ => []
            end
          else [] in
        all_params <- mapM (fun entry => lift (get_graphql_params entry extra_data))
                           data ;;
        responses <- mapM (fun params =>
                             get_response schema params catch_exc allow_only_query)
                          all_params ;;
        ret (responses, all_params)
    end.

End Package.

(** ** Vocabulary for the statements *)

Section Vocabulary.
Context {E : GraphQLEngine} {L : PyLib}.

(** What [get_response] puts in an item's slot when it returns: the
    execution result, or [None] when execution raised. *)
Definition item_outcome (schema : GraphQLSchema) (params : GraphQLParams)
    (allow_only_query : bool) : option ExecResult :=
  match outcome (execute_graphql_request schema params allow_only_query) with
  | Ok r => Some r
  | Raise _ => None
  end.

(** The GraphQL-level error a failed [parse] is turned into. *)
Definition parse_error (p : parse_outcome Document GraphQLError)
  : option GraphQLError :=
  match p with
  | Parsed _ => None
  | ParseGraphQLError e => Some e
  | ParseException str_e => Some (GraphQLError_of_exception str_e)
  end.

(** Validation, then execution when validation found nothing. *)
Definition validated_result (schema : GraphQLSchema) (document : Document)
    (params : GraphQLParams) : ExecResult :=
  match validate schema document with
  | [] => execute schema document (variables params) (operation_name params)
  | errs => mkExecutionResult PNone (Some errs)
  end.

Definition validated_calls (schema : GraphQLSchema) (document : Document)
    (params : GraphQLParams) : list engine_call :=
  CallValidate schema document ::
  match validate schema document with
  | [] => [CallExecute schema document (variables params) (operation_name params)]
  | _ => []
  end.

(** The class [run_http_query] asks [get_response] to catch. *)
Definition catch_class (catch : bool) : exc_class :=
  if catch then ClsHttpQueryError else ClsSkipException.

(** The body of one outcome in the spec's words (Result Encoder): a
    suppressed outcome gives [None]; an executed one gives
    [{"errors": [formatError(e) for e in errors]}] when its errors are
    non-empty and [{"data": data}] otherwise. *)
Definition spec_format_body (formatError : GraphQLError -> pyval)
    (execution_result : option ExecResult) : pyval :=
  match execution_result with
  | None => PNone
  | Some er =>
      match errors_list er with
      | [] => PDict [("data", data er)]
      | errs => PDict [("errors", PList (map formatError errs))]
      end
  end.

(** [isinstance(v, (list, tuple))] *)
Definition is_sequence (v : pyval) : bool :=
  match v with
  | PList _ | PTuple _ => true
  | _ => false
  end.

(** The two comprehensions of [run_http_query] and its return value, once
    the payload has been turned into a non-empty list of items. *)
Definition run_items (schema : GraphQLSchema) (items : list pyval)
    (extra_data : dict) (catch_exc : exc_class) (allow_only_query : bool)
  : M (list (option ExecResult) * list GraphQLParams) :=
  all_params <- mapM (fun entry => lift (get_graphql_params entry extra_data))
                     items ;;
  responses <- mapM (fun params =>
                       get_response schema params catch_exc allow_only_query)
                    all_params ;;
  ret (responses, all_params).

(** An outcome that carries no errors (a suppressed one carries none). *)
Definition error_free (execution_result : option ExecResult) : Prop :=
  match execution_result with
  | Some er => has_errors er = false
  | None => True
  end.

End Vocabulary.

(** ** Python's [json], on the values [pyval] covers

    [json.dumps] as [json_encode] calls it ([ensure_ascii] on, an optional
    indentation, explicit separators) and [json.loads], on [None],
    booleans, integers, strings of code points below 256, lists, tuples
    and mappings with string keys.  [loads] answers [None] where
    [json.loads] raises, and also where the value of the text is not a
    [pyval]: a number with a fraction or an exponent, [NaN], [Infinity],
    an escape above [\u00ff].  No text [dumps] produces is of that kind. *)

Module Json.

Definition dquote : ascii := "034"%char.
Definition backslash : ascii := "092"%char.
Definition lf : ascii := "010"%char.
Definition cr : ascii := "013"%char.
Definition tab : ascii := "009"%char.
Definition bs : ascii := "008"%char.
Definition ff : ascii := "012"%char.

Definition hex_digit (n : nat) : ascii :=
  ascii_of_nat (if Nat.ltb n 10 then 48 + n else 87 + n).

(** One character of a string literal, [ensure_ascii=True]. *)
Definition escape_char (c : ascii) : list ascii :=
  if Ascii.eqb c dquote then [backslash; dquote]
  else if Ascii.eqb c backslash then [backslash; backslash]
  else if Ascii.eqb c lf then [backslash; "n"%char]
  else if Ascii.eqb c cr then [backslash; "r"%char]
  else if Ascii.eqb c tab then [backslash; "t"%char]
  else if Ascii.eqb c bs then [backslash; "b"%char]
  else if Ascii.eqb c ff then [backslash; "f"%char]
  else
    let n := nat_of_ascii c in
    if Nat.leb 32 n && Nat.leb n 126 then [c]
    else [backslash; "u"%char; "0"%char; "0"%char;
          hex_digit (n / 16); hex_digit (n mod 16)].

Definition dump_string (s : string) : list ascii :=
  dquote :: flat_map escape_char (list_ascii_of_string s) ++ [dquote].

Fixpoint uint_chars (d : Decimal.uint) : list ascii :=
  match d with
  | Decimal.Nil => []
  | Decimal.D0 d' => "0"%char :: uint_chars d'
  | Decimal.D1 d' => "1"%char :: uint_chars d'
  | Decimal.D2 d' => "2"%char :: uint_chars d'
  | Decimal.D3 d' => "3"%char :: uint_chars d'
  | Decimal.D4 d' => "4"%char :: uint_chars d'
  | Decimal.D5 d' => "5"%char :: uint_chars d'
  | Decimal.D6 d' => "6"%char :: uint_chars d'
  | Decimal.D7 d' => "7"%char :: uint_chars d'
  | Decimal.D8 d' => "8"%char :: uint_chars d'
  | Decimal.D9 d' => "9"%char :: uint_chars d'
  end.

(** Decimal digits, most significant first, with a minus sign if needed. *)
Definition dump_int (n : Z) : list ascii :=
  match Z.to_int n with
  | Decimal.Pos d => uint_chars d
  | Decimal.Neg d => "-"%char :: uint_chars d
  end.

Definition newline_indent (indent : option nat) (level : nat) : list ascii :=
  match indent with
  | None => []
  | Some w => lf :: repeat " "%char (w * level)
  end.

(** Joins already-dumped items the way [json.dumps] lays out a container. *)
Definition dump_items (indent : option nat) (item_sep : list ascii)
    (level : nat) (opening closing : ascii) (items : list (list ascii))
  : list ascii :=
  match items with
  | [] => [opening; closing]
  | i :: rest =>
      opening :: newline_indent indent (S level) ++ i
        ++ flat_map (fun j => item_sep ++ newline_indent indent (S level) ++ j) rest
        ++ newline_indent indent level ++ [closing]
  end.

Fixpoint dump (indent : option nat) (item_sep key_sep : list ascii)
    (level : nat) (v : pyval) : list ascii :=
  match v with
  | PNone => list_ascii_of_string "null"
  | PBool true => list_ascii_of_string "true"
  | PBool false => list_ascii_of_string "false"
  | PInt n => dump_int n
  | PStr s => dump_string s
  | PList l =>
      dump_items indent item_sep level "["%char "]"%char
        (map (dump indent item_sep key_sep (S level)) l)
  | PTuple l =>
      dump_items indent item_sep level "["%char "]"%char
        (map (dump indent item_sep key_sep (S level)) l)
  | PDict d =>
      dump_items indent item_sep level "{"%char "}"%char
        (map (fun kv => dump_string (fst kv) ++ key_sep
                          ++ dump indent item_sep key_sep (S level) (snd kv)) d)
  end.

Definition dumps (indent : option nat) (separators : string * string)
    (v : pyval) : string :=
  string_of_list_ascii
    (dump indent (list_ascii_of_string (fst separators))
          (list_ascii_of_string (snd separators)) 0 v).

(** *** Decoding *)

Definition is_ws (c : ascii) : bool :=
  Ascii.eqb c " "%char || Ascii.eqb c lf || Ascii.eqb c cr || Ascii.eqb c tab.

Fixpoint skip_ws (cs : list ascii) : list ascii :=
  match cs with
  | c :: r => if is_ws c then skip_ws r else cs
  | [] => []
  end.

Fixpoint strip_prefix (p cs : list ascii) : option (list ascii) :=
  match p, cs with
  | [], _ => Some cs
  | a :: p', c :: r => if Ascii.eqb a c then strip_prefix p' r else None
  | _ :: _, [] => None
  end.

Definition hex_value (c : ascii) : option nat :=
  let n := nat_of_ascii c in
  if Nat.leb 48 n && Nat.leb n 57 then Some (n - 48)
  else if Nat.leb 97 n && Nat.leb n 102 then Some (n - 87)
  else if Nat.leb 65 n && Nat.leb n 70 then Some (n - 55)
  else None.

(** The body of a string literal, after the opening quote. *)
Fixpoint load_string (cs : list ascii) (acc : list ascii)
  : option (string * list ascii) :=
  match cs with
  | [] => None
  | c :: r =>
      if Ascii.eqb c dquote then Some (string_of_list_ascii (rev acc), r)
      else if Ascii.eqb c backslash then
        match r with
        | e :: r' =>
            if Ascii.eqb e dquote then load_string r' (dquote :: acc)
            else if Ascii.eqb e backslash then load_string r' (backslash :: acc)
            else if Ascii.eqb e "/"%char then load_string r' ("/"%char :: acc)
            else if Ascii.eqb e "n"%char then load_string r' (lf :: acc)
            else if Ascii.eqb e "r"%char then load_string r' (cr :: acc)
            else if Ascii.eqb e "t"%char then load_string r' (tab :: acc)
            else if Ascii.eqb e "b"%char then load_string r' (bs :: acc)
            else if Ascii.eqb e "f"%char then load_string r' (ff :: acc)
            else if Ascii.eqb e "u"%char then
              match r' with
              | h1 :: h2 :: h3 :: h4 :: r'' =>
                  match hex_value h1, hex_value h2, hex_value h3, hex_value h4 with
                  | Some 0, Some 0, Some a, Some b =>
                      load_string r'' (ascii_of_nat (16 * a + b) :: acc)
                  | _, _, _, _ => None
                  end
              | _ => None
              end
            else None
        | [] => None
        end
      else if Nat.ltb (nat_of_ascii c) 32 then None
      else load_string r (c :: acc)
  end.

Definition digit_of (c : ascii) : option (Decimal.uint -> Decimal.uint) :=
  if Ascii.eqb c "0"%char then Some Decimal.D0
  else if Ascii.eqb c "1"%char then Some Decimal.D1
  else if Ascii.eqb c "2"%char then Some Decimal.D2
  else if Ascii.eqb c "3"%char then Some Decimal.D3
  else if Ascii.eqb c "4"%char then Some Decimal.D4
  else if Ascii.eqb c "5"%char then Some Decimal.D5
  else if Ascii.eqb c "6"%char then Some Decimal.D6
  else if Ascii.eqb c "7"%char then Some Decimal.D7
  else if Ascii.eqb c "8"%char then Some Decimal.D8
  else if Ascii.eqb c "9"%char then Some Decimal.D9
  else None.

(** The longest run of digits at the head of the text. *)
Fixpoint load_uint (cs : list ascii) : Decimal.uint * list ascii :=
  match cs with
  | [] => (Decimal.Nil, [])
  | c :: r =>
      match digit_of c with
      | Some digit => let (d, r') := load_uint r in (digit d, r')
      | None => (Decimal.Nil, cs)
      end
  end.

(** An integer literal: an optional minus sign, then [0] or a digit
    string that does not start with [0]. *)
Definition load_int (cs : list ascii) : option (Z * list ascii) :=
  let (neg, ds) :=
    match cs with
    | c :: r => if Ascii.eqb c "-"%char then (true, r) else (false, cs)
    | [] => (false, [])
    end in
  let (d, r) := load_uint ds in
  match d with
  | Decimal.Nil => None
  | _ =>
      if Decimal.uint_beq (Decimal.unorm d) d
      then Some (Z.of_int (if neg then Decimal.Neg d else Decimal.Pos d), r)
      else None
  end.

(** [d[k] = v]: a repeated key keeps its place and takes the last value. *)
Fixpoint dict_set (d : dict) (k : string) (v : pyval) : dict :=
  match d with
  | [] => [(k, v)]
  | (k', v') :: d' => if k' =? k then (k', v) :: d' else (k', v') :: dict_set d' k v
  end.

Fixpoint load_value (fuel : nat) (cs : list ascii) {struct fuel}
  : option (pyval * list ascii) :=
  match fuel with
  | O => None
  | S fuel' =>
      match skip_ws cs with
      | [] => None
      | c :: r =>
          if Ascii.eqb c dquote then
            match load_string r [] with
            | Some (s, r') => Some (PStr s, r')
            | None => None
            end
          else if Ascii.eqb c "["%char then
            match skip_ws r with
            | c' :: r' =>
                if Ascii.eqb c' "]"%char then Some (PList [], r')
                else
                  match load_array fuel' r [] with
                  | Some (l, r'') => Some (PList l, r'')
                  | None => None
                  end
            | [] => None
            end
          else if Ascii.eqb c "{"%char then
            match skip_ws r with
            | c' :: r' =>
                if Ascii.eqb c' "}"%char then Some (PDict [], r')
                else
                  match load_object fuel' r [] with
                  | Some (d, r'') => Some (PDict d, r'')
                  | None => None
                  end
            | [] => None
            end
          else
            match strip_prefix (list_ascii_of_string "null") (c :: r) with
            | Some r' => Some (PNone, r')
            | None =>
            match strip_prefix (list_ascii_of_string "true") (c :: r) with
            | Some r' => Some (PBool true, r')
            | None =>
            match strip_prefix (list_ascii_of_string "false") (c :: r) with
            | Some r' => Some (PBool false, r')
            | None =>
            match load_int (c :: r) with
            | Some (n, r') => Some (PInt n, r')
            | None => None
            end end end end
      end
  end

with load_array (fuel : nat) (cs : list ascii) (acc : list pyval) {struct fuel}
  : option (list pyval * list ascii) :=
  match fuel with
  | O => None
  | S fuel' =>
      match load_value fuel' cs with
      | Some (v, r) =>
          match skip_ws r with
          | c :: r' =>
              if Ascii.eqb c ","%char then load_array fuel' r' (acc ++ [v])
              else if Ascii.eqb c "]"%char then Some (acc ++ [v], r')
              else None
          | [] => None
          end
      | None => None
      end
  end

with load_object (fuel : nat) (cs : list ascii) (acc : dict) {struct fuel}
  : option (dict * list ascii) :=
  match fuel with
  | O => None
  | S fuel' =>
      match skip_ws cs with
      | q :: r =>
          if Ascii.eqb q dquote then
            match load_string r [] with
            | Some (k, r1) =>
                match skip_ws r1 with
                | colon :: r2 =>
                    if Ascii.eqb colon ":"%char then
                      match load_value fuel' r2 with
                      | Some (v, r3) =>
                          match skip_ws r3 with
                          | c :: r4 =>
                              if Ascii.eqb c ","%char
                              then load_object fuel' r4 (dict_set acc k v)
                              else if Ascii.eqb c "}"%char
                              then Some (dict_set acc k v, r4)
                              else None
                          | [] => None
                          end
                      | None => None
                      end
                    else None
                | [] => None
                end
            | None => None
            end
          else None
      | [] => None
      end
  end.

(** [json.loads]: one value, then nothing but white space. *)
Definition loads (s : string) : option pyval :=
  let cs := list_ascii_of_string s in
  match load_value (2 * List.length cs + 2) cs with
  | Some (v, r) => match skip_ws r with [] => Some v | _ :: _ => None end
  | None => None
  end.

(** *** Vocabulary for the round trip *)

(** No key occurs twice. *)
Fixpoint distinct (ks : list string) : bool :=
  match ks with
  | [] => true
  | k :: r => negb (existsb (String.eqb k) r) && distinct r
  end.

(** The values JSON can carry: no tuples, and mappings without a repeated
    key. *)
Fixpoint json_shaped (v : pyval) : bool :=
  match v with
  | PTuple _ => false
  | PList l => forallb json_shaped l
  | PDict d => distinct (map fst d) && forallb (fun kv => json_shaped (snd kv)) d
  | _ => true
  end.

(** Mappings are well formed: no key occurs twice, at any depth. *)
Fixpoint unique_keys (v : pyval) : bool :=
  match v with
  | PList l => forallb unique_keys l
  | PTuple l => forallb unique_keys l
  | PDict d => distinct (map fst d) && forallb (fun kv => unique_keys (snd kv)) d
  | _ => true
  end.

(** The same value with every tuple turned into the list of its items:
    what JSON keeps of a value. *)
Fixpoint as_lists (v : pyval) : pyval :=
  match v with
  | PList l => PList (map as_lists l)
  | PTuple l => PList (map as_lists l)
  | PDict d => PDict (map (fun kv => (fst kv, as_lists (snd kv))) d)
  | _ => v
  end.

(** The text that may follow a number: anything but a digit. *)
Definition no_digit_ahead (rest : list ascii) : Prop :=
  match rest with
  | [] => True
  | c :: _ => digit_of c = None
  end.

(** The first character of a dumped value. *)
Definition value_start (c : ascii) : Prop :=
  In c (list_ascii_of_string "ntf[{-0123456789") \/ c = dquote.

(** The inside of a dumped container that has a first item. *)
Definition items_text (indent : option nat) (level : nat) (closing : ascii)
    (first : list ascii) (others : list (list ascii)) : list ascii :=
  newline_indent indent (S level) ++ first
    ++ flat_map (fun j => [","%char] ++ newline_indent indent (S level) ++ j)
         others
    ++ newline_indent indent level ++ [closing].

(** One dumped entry of a mapping. *)
Definition entry_text (indent : option nat) (key_ws : list ascii) (level : nat)
    (kv : string * pyval) : list ascii :=
  dump_string (fst kv) ++ (":"%char :: key_ws)
    ++ dump indent [","%char] (":"%char :: key_ws) (S level) (snd kv).

(** [load_value] reads back the dump of [v], whatever follows it. *)
Definition round_trips (indent : option nat) (key_ws : list ascii) (v : pyval)
  : Prop :=
  forall level fuel rest,
    json_shaped v = true ->
    2 * List.length (dump indent [","%char] (":"%char :: key_ws) level v ++ rest)
    < fuel ->
    no_digit_ahead rest ->
    load_value fuel (dump indent [","%char] (":"%char :: key_ws) level v ++ rest)
    = Some (v, rest).


End Json.

(** The libraries of a Python whose [json] is the codec above; [str] is
    whatever [str.format] prints. *)
Definition json_library (str : pyval -> string) : PyLib := {|
  json_loads := Json.loads;
  json_dumps := Json.dumps;
  py_str := str
|}.

(** Goals about the lengths of concatenated texts. *)
Ltac solve_len :=
  rewrite ?length_app in *; cbn [List.length] in *;
  rewrite ?length_app in *; cbn [List.length] in *; lia.

(** ** A small engine and library to run the package on

    A document is one anonymous operation, recognised by its first
    keyword; a named lookup finds nothing; subscriptions do not validate.
    Enough to reach every branch of the package. *)

Module Demo.

Definition starts_with (p s : string) : bool := String.prefix p s.

Definition demo_parse (q : pyval) : parse_outcome OperationType string :=
  match q with
  | PStr s =>
      if starts_with "mutation" s then Parsed MUTATION
      else if starts_with "subscription" s then Parsed SUBSCRIPTION
      else if starts_with "query" s || starts_with "{" s then Parsed QUERY
      else ParseGraphQLError "Syntax Error: Unexpected Name."
  | _ => ParseException "body must be a string"
  end.

Definition demo_get_operation_ast (d : OperationType) (name : pyval)
  : option OperationType :=
  match name with
  | PNone => Some d
  | _ => None
  end.

Definition demo_validate (schema : unit) (d : OperationType) : list string :=
  match d with
  | SUBSCRIPTION => ["Schema is not configured for subscriptions."]
  | _ => []
  end.

Definition demo_execute (schema : unit) (d : OperationType)
    (variable_values operation_name : pyval) : ExecutionResult string :=
  mkExecutionResult
    (PDict [("__typename",
             PStr (match d with
                   | QUERY => "Query"
                   | MUTATION => "Mutation"
                   | SUBSCRIPTION => "Subscription"
                   end))])
    None.

Definition demo_format_error (e : string) : pyval :=
  PDict [("message", PStr e)].

#[export] Instance engine : GraphQLEngine := {|
  GraphQLSchema := unit;
  Document := OperationType;
  OperationDefinitionNode := OperationType;
  GraphQLError := string;
  parse := demo_parse;
  GraphQLError_of_exception := fun s => s;
  get_operation_ast := demo_get_operation_ast;
  operation := fun o => o;
  validate := demo_validate;
  execute := demo_execute;
  format_error_default := demo_format_error
|}.

Definition join (sep : string) (l : list string) : string :=
  match l with
  | [] => ""
  | x :: r => (x ++ String.concat "" (map (fun y => sep ++ y) r))%string
  end.

(** [repr(v)], without escapes inside string literals. *)
Fixpoint py_repr (v : pyval) : string :=
  match v with
  | PNone => "None"
  | PBool true => "True"
  | PBool false => "False"
  | PInt n => string_of_list_ascii (Json.dump_int n)
  | PStr s => ("'" ++ s ++ "'")%string
  | PList l => ("[" ++ join ", " (map py_repr l) ++ "]")%string
  | PTuple [x] => ("(" ++ py_repr x ++ ",)")%string
  | PTuple l => ("(" ++ join ", " (map py_repr l) ++ ")")%string
  | PDict d =>
      ("{" ++ join ", "
                (map (fun kv => ("'" ++ fst kv ++ "': " ++ py_repr (snd kv))%string) d)
           ++ "}")%string
  end.

Definition demo_str (v : pyval) : string :=
  match v with
  | PStr s => s
  | _ => py_repr v
  end.

#[export] Instance pylib : PyLib := json_library demo_str.

(** A caller-supplied formatter, as a web framework would pass one. *)
Definition custom_format_error (e : string) : pyval :=
  PDict [("message", PStr e); ("code", PInt 1)].

(** A batch with a syntax error, a missing query and a well-formed item. *)
Definition demo_batch : list pyval :=
  [PDict [("query", PStr "bad syntax {")];
   PDict [];
   PDict [("query", PStr "{ __typename }"); ("variables", PStr "{}")]].

End Demo.

(** * Properties *)

(** ** The request executor *)

Section ExecutorProperties.
Context {E : GraphQLEngine} {L : PyLib}.

Lemma bind_ret_l {A B} (a : A) (f : A -> M B) : bind (ret a) f = f a.
Proof. unfold bind, ret; simpl. now destruct (f a). Qed.

Lemma bind_ret_skip {A B} (a : A) (k : M B) : bind (ret a) (fun _ => k) = k.
Proof. unfold bind, ret; simpl. now destruct k. Qed.

Lemma bind_lift_ok {A B} (a : A) (f : A -> M B) : bind (lift (Ok a)) f = f a.
Proof. apply bind_ret_l. Qed.

Lemma bind_raise_l {A B} (e : exn) (f : A -> M B) : bind (raise e) f = raise e.
Proof. reflexivity. Qed.

Lemma bind_call {B} (c : engine_call) (k : M B) :
  bind (call c) (fun _ => k) = (c :: fst k, snd k).
Proof. reflexivity. Qed.

Lemma value_is_query (o : OperationType) :
  (value o =? "query") = match o with QUERY => true | _ => false end.
Proof. now destruct o. Qed.

Lemma validate_tail schema document params :
  (call (CallValidate schema document) ;;;
   match validate schema document with
   | _ :: _ => ret (mkExecutionResult PNone (Some (validate schema document)))
   | [] =>
       call (CallExecute schema document
               (variables params) (operation_name params)) ;;;
       ret (execute schema document (variables params) (operation_name params))
   end)
  = (validated_calls schema document params,
     Ok (validated_result schema document params)).
Proof.
  unfold validated_calls, validated_result.
  destruct (validate schema document); reflexivity.
Qed.

(** The executor with the read-only restriction off, on a parsed document. *)
Lemma execute_unrestricted schema params document :
  truthy (query params) = true ->
  parse (query params) = Parsed document ->
  execute_graphql_request schema params false
  = (CallParse (query params) :: validated_calls schema document params,
     Ok (validated_result schema document params)).
Proof.
  intros Hq Hp. unfold execute_graphql_request.
  rewrite Hq, Hp. cbn [negb]. cbv beta iota.
  rewrite bind_ret_skip, bind_call, validate_tail. reflexivity.
Qed.

(** The executor with the restriction on, when the resolved operation is
    absent or a query. *)
Lemma execute_restricted_pass schema params document :
  truthy (query params) = true ->
  parse (query params) = Parsed document ->
  match get_operation_ast document (operation_name params) with
  | Some operation_ast => operation operation_ast = QUERY
  | None => True
  end ->
  execute_graphql_request schema params true
  = (CallParse (query params)
       :: CallGetOperationAst document (operation_name params)
       :: validated_calls schema document params,
     Ok (validated_result schema document params)).
Proof.
  intros Hq Hp Hop. unfold execute_graphql_request.
  rewrite Hq, Hp. cbn [negb]. cbv beta iota.
  unfold validated_calls, validated_result.
  destruct (get_operation_ast document (operation_name params)) as [op|];
    [rewrite Hop|]; destruct (validate schema document); reflexivity.
Qed.

(** The executor with the restriction on, when the resolved operation is
    not a query. *)
Lemma execute_restricted_reject schema params document operation_ast :
  truthy (query params) = true ->
  parse (query params) = Parsed document ->
  get_operation_ast document (operation_name params) = Some operation_ast ->
  operation operation_ast <> QUERY ->
  execute_graphql_request schema params true
  = ([CallParse (query params);
      CallGetOperationAst document (operation_name params)],
     Raise (HttpQueryError 405
              ("Can only perform a " ++ value (operation operation_ast)
                 ++ " operation from a POST request.")
              (Some [("Allow", "POST")]))).
Proof.
  intros Hq Hp Hop Hk. unfold execute_graphql_request.
  rewrite Hq, Hp, Hop. cbn [negb]. cbv beta iota.
  rewrite value_is_query.
  destruct (operation operation_ast); [congruence | reflexivity | reflexivity].
Qed.

(** A failed parse becomes an in-band error, whatever the verb. *)
Lemma execute_parse_failure schema params allow_only_query e :
  truthy (query params) = true ->
  parse_error (parse (query params)) = Some e ->
  execute_graphql_request schema params allow_only_query
  = ([CallParse (query params)], Ok (mkExecutionResult PNone (Some [e]))).
Proof.
  intros Hq He. unfold execute_graphql_request. rewrite Hq. cbn [negb].
  destruct (parse (query params)); cbn in He; try discriminate;
    injection He as <-; reflexivity.
Qed.

Lemma execute_no_query schema params allow_only_query :
  truthy (query params) = false ->
  execute_graphql_request schema params allow_only_query
  = ([], Raise (HttpQueryError 400 "Must provide query string." None)).
Proof.
  intros Hq. unfold execute_graphql_request. now rewrite Hq.
Qed.

(** Execution raises nothing but [HttpQueryError]. *)
Lemma execute_raises_http schema params allow_only_query e :
  outcome (execute_graphql_request schema params allow_only_query) = Raise e ->
  isinstance_exn e ClsHttpQueryError = true.
Proof.
  destruct (truthy (query params)) eqn:Hq.
  2:{ rewrite execute_no_query by assumption. cbn. now intros [= <-]. }
  destruct (parse (query params)) as [document|e'|s] eqn:Hp.
  - destruct allow_only_query.
    + destruct (get_operation_ast document (operation_name params)) as [op|] eqn:Hop.
      * destruct (operation op) eqn:Hk.
        -- rewrite (execute_restricted_pass _ _ document) by (try rewrite Hop; assumption).
           discriminate.
        -- rewrite (execute_restricted_reject _ _ document op) by (congruence || assumption).
           cbn. now intros [= <-].
        -- rewrite (execute_restricted_reject _ _ document op) by (congruence || assumption).
           cbn. now intros [= <-].
      * rewrite (execute_restricted_pass _ _ document) by (try rewrite Hop; auto).
        discriminate.
    + rewrite (execute_unrestricted _ _ document) by assumption. discriminate.
  - rewrite (execute_parse_failure _ _ _ e') by (try rewrite Hp; auto). discriminate.
  - rewrite (execute_parse_failure _ _ _ (GraphQLError_of_exception s))
      by (try rewrite Hp; auto). discriminate.
Qed.

Lemma get_response_trace schema params cls allow_only_query :
  trace (get_response schema params cls allow_only_query)
  = trace (execute_graphql_request schema params allow_only_query).
Proof.
  unfold get_response, try_except, bind, trace, ret.
  destruct (execute_graphql_request schema params allow_only_query) as [t [r|e]];
    cbn; [now rewrite app_nil_r|].
  destruct (isinstance_exn e cls); cbn; [now rewrite app_nil_r | reflexivity].
Qed.

(** With [catch = HttpQueryError] a slot never raises. *)
Lemma get_response_contained schema params allow_only_query :
  outcome (get_response schema params ClsHttpQueryError allow_only_query)
  = Ok (item_outcome schema params allow_only_query).
Proof.
  pose proof (execute_raises_http schema params allow_only_query) as Hr.
  unfold get_response, try_except, bind, outcome, item_outcome, ret in *.
  destruct (execute_graphql_request schema params allow_only_query) as [t [r|e]];
    cbn in *; [reflexivity|].
  now rewrite (Hr e eq_refl).
Qed.

(** With [catch = SkipException] a slot returns what execution returns and
    raises what execution raises. *)
Lemma get_response_propagating schema params allow_only_query :
  outcome (get_response schema params ClsSkipException allow_only_query)
  = match outcome (execute_graphql_request schema params allow_only_query) with
    | Ok r => Ok (Some r)
    | Raise e => Raise e
    end.
Proof.
  unfold get_response, try_except, bind, outcome, ret.
  destruct (execute_graphql_request schema params allow_only_query) as [t [r|e]];
    cbn; [reflexivity|].
  now destruct e.
Qed.

End ExecutorProperties.

Section ExecutorClaims.
Context {E : GraphQLEngine} {L : PyLib}.

Lemma load_json_variables_falsy v :
  truthy v = false -> load_json_variables v = Ok v.
Proof. intros H. unfold load_json_variables. now rewrite H. Qed.

(** [load_json_variables], case by case. *)
Lemma load_json_variables_unfold v :
  load_json_variables v
  = match v with
    | PStr "" => Ok v
    | PStr s =>
        match json_loads s with
        | Some decoded => Ok decoded
        | None => Raise (HttpQueryError 400 "Variables are invalid JSON." None)
        end
    | _ => Ok v
    end.
Proof.
  unfold load_json_variables.
  destruct v as [|b|n|s|l|l|d]; cbn [truthy is_str andb];
    try reflexivity; try (now rewrite andb_false_r).
  destruct s; reflexivity.
Qed.

(** What parameter extraction yields on a mapping. *)
Lemma get_graphql_params_dict d fallback params :
  get_graphql_params (PDict d) fallback = Ok params ->
  query params = py_or (dict_get d "query") (dict_get fallback "query")
  /\ operation_name params
     = py_or (dict_get d "operationName") (dict_get fallback "operationName")
  /\ load_json_variables
       (py_or (dict_get d "variables") (dict_get fallback "variables"))
     = Ok (variables params).
Proof.
  unfold get_graphql_params. cbn [py_get rbind].
  destruct (load_json_variables _) as [vars|e]; cbn [rbind]; [|discriminate].
  intros [= <-]. cbn. auto.
Qed.

(** C5: a request item whose query, after fallback, is absent ([None]) or
    the empty string (or any other falsy value) makes
    [execute_graphql_request] raise
    [HttpQueryError(400, "Must provide query string.")] with no engine call
    made, and [get_response] never yields an executed outcome for it. *)
Theorem C5_missing_query_is_structural_error
    schema d fallback params allow_only_query cls :
  get_graphql_params (PDict d) fallback = Ok params ->
  truthy (py_or (dict_get d "query") (dict_get fallback "query")) = false ->
  execute_graphql_request schema params allow_only_query
  = ([], Raise (HttpQueryError 400 "Must provide query string." None))
  /\ trace (get_response schema params cls allow_only_query) = []
  /\ forall r,
       outcome (get_response schema params cls allow_only_query) <> Ok (Some r).
Proof.
  intros Hp Hq.
  apply get_graphql_params_dict in Hp as (Hquery & _ & _).
  rewrite <- Hquery in Hq.
  pose proof (execute_no_query schema params allow_only_query Hq) as Hx.
  split; [exact Hx|]. split.
  - now rewrite get_response_trace, Hx.
  - intros r. destruct cls.
    + rewrite get_response_contained. unfold item_outcome. now rewrite Hx.
    + rewrite get_response_propagating. now rewrite Hx.
Qed.

Lemma truthy_nonempty_str q : q <> "" -> truthy (PStr q) = true.
Proof.
  intros H. cbn. destruct (String.eqb_spec q ""); [contradiction | reflexivity].
Qed.

(** Encoding never changes the status: it is 200 whenever a response is
    produced. *)
Lemma format_execution_result_status r fe resp :
  format_execution_result r fe = Ok resp -> status_code resp = 200%Z.
Proof.
  unfold format_execution_result.
  destruct (match r with Some _ => _ | None => _ end); cbn [rbind];
    [|discriminate].
  now intros [= <-].
Qed.

(** C6: on a non-empty query string that the engine's [parse] rejects,
    [execute_graphql_request] raises nothing: after the one call to [parse]
    it returns [ExecutionResult(data=None, errors=[e])], [e] being the parse
    error ([GraphQLError]) or the wrapping of any other exception.  That
    result is formatted as [{"errors": [...]}] with status 200, and no
    formatter yields another status for it. *)
Theorem C6_parse_failure_is_in_band schema params allow_only_query q e :
  query params = PStr q ->
  q <> "" ->
  parse_error (parse (PStr q)) = Some e ->
  execute_graphql_request schema params allow_only_query
  = ([CallParse (PStr q)], Ok (mkExecutionResult PNone (Some [e])))
  /\ format_execution_result (Some (mkExecutionResult PNone (Some [e]))) None
     = Ok (mkGraphQLResponse
             (PDict [("errors", PList [format_error_default e])]) 200)
  /\ forall fe resp,
       format_execution_result (Some (mkExecutionResult PNone (Some [e]))) fe
       = Ok resp ->
       status_code resp = 200%Z.
Proof.
  intros Hq Hne He. split; [|split].
  - rewrite <- Hq in *. apply execute_parse_failure; [|assumption].
    rewrite Hq. now apply truthy_nonempty_str.
  - reflexivity.
  - intros fe resp. apply format_execution_result_status.
Qed.

(** C7: when the operation resolved for [operation_name] in a parsed
    document is a mutation or a subscription, executing with
    [allow_only_query] (the GET verb) raises
    [HttpQueryError(405, "Can only perform a <op> operation from a POST
    request.", headers={"Allow": "POST"})] right after [get_operation_ast],
    while executing the same parameters without it (POST) raises nothing:
    [validate] is called, and [execute] is called when validation finds no
    error. *)
Theorem C7_read_only_verb_rejects_writes schema params document operation_ast :
  truthy (query params) = true ->
  parse (query params) = Parsed document ->
  get_operation_ast document (operation_name params) = Some operation_ast ->
  operation operation_ast = MUTATION \/ operation operation_ast = SUBSCRIPTION ->
  execute_graphql_request schema params true
  = ([CallParse (query params);
      CallGetOperationAst document (operation_name params)],
     Raise (HttpQueryError 405
              ("Can only perform a " ++ value (operation operation_ast)
                 ++ " operation from a POST request.")
              (Some [("Allow", "POST")])))
  /\ execute_graphql_request schema params false
     = (CallParse (query params) :: validated_calls schema document params,
        Ok (validated_result schema document params))
  /\ In (CallValidate schema document)
        (trace (execute_graphql_request schema params false))
  /\ (validate schema document = [] ->
      In (CallExecute schema document (variables params) (operation_name params))
         (trace (execute_graphql_request schema params false))
      /\ outcome (execute_graphql_request schema params false)
         = Ok (execute schema document (variables params) (operation_name params))).
Proof.
  intros Hq Hp Hop Hk.
  split.
  - apply execute_restricted_reject; try assumption.
    destruct Hk as [-> | ->]; discriminate.
  - rewrite (execute_unrestricted schema params document Hq Hp).
    split; [reflexivity|]. unfold trace, outcome, validated_calls, validated_result.
    cbn [fst snd]. split.
    + right. left. reflexivity.
    + intros ->. split; [|reflexivity]. right. right. left. reflexivity.
Qed.

(** C10: when [allow_only_query] is set but [get_operation_ast] returns
    [None] for the given operation name, [execute_graphql_request] raises no
    405: it goes on to [validate] (and [execute] when validation finds no
    error) and returns exactly what it returns without the restriction. *)
Theorem C10_unresolved_operation_is_not_restricted schema params document :
  truthy (query params) = true ->
  parse (query params) = Parsed document ->
  get_operation_ast document (operation_name params) = None ->
  execute_graphql_request schema params true
  = (CallParse (query params)
       :: CallGetOperationAst document (operation_name params)
       :: validated_calls schema document params,
     Ok (validated_result schema document params))
  /\ outcome (execute_graphql_request schema params true)
     = outcome (execute_graphql_request schema params false)
  /\ In (CallValidate schema document)
        (trace (execute_graphql_request schema params true)).
Proof.
  intros Hq Hp Hop.
  assert (Hx : execute_graphql_request schema params true
               = (CallParse (query params)
                    :: CallGetOperationAst document (operation_name params)
                    :: validated_calls schema document params,
                  Ok (validated_result schema document params))).
  { apply execute_restricted_pass; try assumption. now rewrite Hop. }
  rewrite Hx, (execute_unrestricted schema params document Hq Hp).
  split; [reflexivity|]. split; [reflexivity|].
  unfold trace, validated_calls. cbn [fst]. right. right. left. reflexivity.
Qed.

End ExecutorClaims.

(** The claims above, run on the demo engine. *)

Section ExecutorWitnesses.
Import Demo.

Lemma C5_witness :
  get_graphql_params (PDict [("query", PStr "")]) []
  = Ok (mkGraphQLParams PNone PNone PNone)
  /\ truthy (py_or (dict_get [("query", PStr "")] "query") (dict_get [] "query"))
     = false
  /\ (execute_graphql_request (E := Demo.engine) tt
        (mkGraphQLParams PNone PNone PNone) true
      = ([], Raise (HttpQueryError 400 "Must provide query string." None))
      /\ trace (get_response (E := Demo.engine) tt
                  (mkGraphQLParams PNone PNone PNone) ClsHttpQueryError true) = []
      /\ forall r,
           outcome (get_response (E := Demo.engine) tt
                      (mkGraphQLParams PNone PNone PNone) ClsHttpQueryError true)
           <> Ok (Some r)).
Proof.
  split; [reflexivity|]. split; [reflexivity|].
  apply (C5_missing_query_is_structural_error (E := Demo.engine) (L := Demo.pylib)
           tt [("query", PStr "")] []); reflexivity.
Defined.

Lemma C6_witness :
  "bad syntax {" <> ""
  /\ parse_error (parse (GraphQLEngine := Demo.engine) (PStr "bad syntax {"))
     = Some "Syntax Error: Unexpected Name."
  /\ execute_graphql_request (E := Demo.engine) tt
       (mkGraphQLParams (PStr "bad syntax {") PNone PNone) true
     = ([CallParse (PStr "bad syntax {")],
        Ok (mkExecutionResult PNone (Some ["Syntax Error: Unexpected Name."]))).
Proof.
  split; [discriminate|]. split; [reflexivity|].
  apply (C6_parse_failure_is_in_band (E := Demo.engine) tt
           (mkGraphQLParams (PStr "bad syntax {") PNone PNone) true
           "bad syntax {" "Syntax Error: Unexpected Name.");
    [reflexivity | discriminate | reflexivity].
Defined.

Lemma C7_witness :
  execute_graphql_request (E := Demo.engine) tt
    (mkGraphQLParams (PStr "mutation { bump }") PNone PNone) true
  = ([CallParse (PStr "mutation { bump }"); CallGetOperationAst MUTATION PNone],
     Raise (HttpQueryError 405
              "Can only perform a mutation operation from a POST request."
              (Some [("Allow", "POST")])))
  /\ execute_graphql_request (E := Demo.engine) tt
       (mkGraphQLParams (PStr "mutation { bump }") PNone PNone) false
     = ([CallParse (PStr "mutation { bump }"); CallValidate tt MUTATION;
         CallExecute tt MUTATION PNone PNone],
        Ok (mkExecutionResult (PDict [("__typename", PStr "Mutation")]) None)).
Proof.
  pose proof (C7_read_only_verb_rejects_writes (E := Demo.engine) tt
                (mkGraphQLParams (PStr "mutation { bump }") PNone PNone)
                MUTATION MUTATION eq_refl eq_refl eq_refl (or_introl eq_refl))
    as (Hget & Hpost & _).
  split; [exact Hget | exact Hpost].
Defined.

Lemma C10_witness :
  execute_graphql_request (E := Demo.engine) tt
    (mkGraphQLParams (PStr "mutation { bump }") PNone (PStr "Other")) true
  = ([CallParse (PStr "mutation { bump }");
      CallGetOperationAst MUTATION (PStr "Other");
      CallValidate tt MUTATION;
      CallExecute tt MUTATION PNone (PStr "Other")],
     Ok (mkExecutionResult (PDict [("__typename", PStr "Mutation")]) None)).
Proof.
  exact (proj1 (C10_unresolved_operation_is_not_restricted (E := Demo.engine) tt
                  (mkGraphQLParams (PStr "mutation { bump }") PNone (PStr "Other"))
                  MUTATION eq_refl eq_refl eq_refl)).
Defined.

End ExecutorWitnesses.

(** ** The batch orchestrator *)

Section BatchProperties.
Context {E : GraphQLEngine} {L : PyLib}.

Lemma Forall2_nth_error_l {A B} (R : A -> B -> Prop) l l' i x :
  Forall2 R l l' -> nth_error l i = Some x ->
  exists y, nth_error l' i = Some y /\ R x y.
Proof.
  intros H. revert i. induction H as [|a b l l' Hab _ IH]; intros [|i] Hi;
    cbn in *; try discriminate.
  - injection Hi as <-. eauto.
  - now apply IH.
Qed.

Lemma rmap_ok_inv {A B} (f : A -> completion B) l ys :
  rmap f l = Ok ys -> Forall2 (fun x y => f x = Ok y) l ys.
Proof.
  revert ys. induction l as [|x l IH]; cbn; intros ys H.
  - injection H as <-. constructor.
  - destruct (f x) as [y|e] eqn:Hx; cbn in H; [|discriminate].
    destruct (rmap f l) as [ys'|e]; cbn in H; [|discriminate].
    injection H as <-. constructor; auto.
Qed.

Lemma mapM_lift {A B} (f : A -> completion B) l :
  mapM (fun x => lift (f x)) l = lift (rmap f l).
Proof.
  induction l as [|x l IH]; [reflexivity|].
  cbn [mapM rmap]. rewrite IH. unfold bind, lift, ret. cbn.
  destruct (f x); cbn; [|reflexivity].
  destruct (rmap f l); reflexivity.
Qed.

Lemma mapM_cons {A B} (f : A -> M B) x l :
  mapM f (x :: l)
  = match outcome (f x) with
    | Ok y =>
        match outcome (mapM f l) with
        | Ok ys => (trace (f x) ++ trace (mapM f l), Ok (y :: ys))
        | Raise e => (trace (f x) ++ trace (mapM f l), Raise e)
        end
    | Raise e => (trace (f x), Raise e)
    end.
Proof.
  cbn [mapM]. unfold bind, ret, outcome, trace.
  destruct (f x) as [t [y|e]]; cbn; [|reflexivity].
  destruct (mapM f l) as [t' [ys|e]]; cbn; [|reflexivity].
  now rewrite app_nil_r.
Qed.

(** A comprehension none of whose items raises runs them all, in order. *)
Lemma mapM_all_ok {A B} (f : A -> M B) (g : A -> B) l :
  (forall x, In x l -> outcome (f x) = Ok (g x)) ->
  mapM f l = (flat_map (fun x => trace (f x)) l, Ok (map g l)).
Proof.
  induction l as [|x l IH]; intros H; [reflexivity|].
  rewrite mapM_cons, (H x (or_introl eq_refl)).
  rewrite IH by (intros y Hy; apply H; now right). reflexivity.
Qed.

(** A comprehension stops at the first item that raises; the items after it
    are not run. *)
Lemma mapM_first_raise {A B} (f : A -> M B) pre p post e :
  (forall q, In q pre -> exists r, outcome (f q) = Ok r) ->
  outcome (f p) = Raise e ->
  mapM f (pre ++ p :: post)
  = (flat_map (fun x => trace (f x)) (pre ++ [p]), Raise e).
Proof.
  intros Hpre Hp. induction pre as [|x pre IH]; cbn [app].
  - rewrite mapM_cons, Hp. cbn. now rewrite app_nil_r.
  - rewrite mapM_cons.
    destruct (Hpre x (or_introl eq_refl)) as [r ->].
    rewrite IH by (intros q Hq; apply Hpre; now right). reflexivity.
Qed.

Lemma mapM_ok_inv {A B} (f : A -> M B) l ys :
  outcome (mapM f l) = Ok ys ->
  Forall2 (fun x y => outcome (f x) = Ok y) l ys.
Proof.
  revert ys. induction l as [|x l IH]; intros ys H.
  - cbn in H. injection H as <-. constructor.
  - rewrite mapM_cons in H.
    destruct (outcome (f x)) as [y|e] eqn:Hx; [|discriminate].
    destruct (outcome (mapM f l)) as [ys'|e] eqn:Hl; [|discriminate].
    cbn in H. injection H as <-. constructor; auto.
Qed.

(** The slot of an item, whenever [get_response] returns one. *)
Lemma get_response_ok schema params cls allow_only_query r :
  outcome (get_response schema params cls allow_only_query) = Ok r ->
  r = item_outcome schema params allow_only_query.
Proof.
  destruct cls.
  - rewrite get_response_contained. now intros [= <-].
  - rewrite get_response_propagating. unfold item_outcome.
    destruct (outcome (execute_graphql_request schema params allow_only_query));
      [now intros [= <-] | discriminate].
Qed.

(** [run_http_query] on a list payload, once the method, the batch switch
    and the emptiness check have passed: extract every item's parameters
    (with no fallback), then run the items in order. *)
Lemma run_http_query_batch schema request_method items query_data catch :
  method_supported request_method = true ->
  items <> [] ->
  run_http_query schema request_method (PList items) query_data true catch
  = (all_params <- lift (rmap (fun entry => get_graphql_params entry []) items) ;;
     responses <- mapM (fun params =>
                          get_response schema params (catch_class catch)
                            (request_method =? "get"))
                       all_params ;;
     ret (responses, all_params)).
Proof.
  intros Hm Hne. unfold run_http_query. rewrite Hm. cbn [negb is_list].
  destruct items as [|i items]; [contradiction|].
  rewrite bind_ret_l, mapM_lift. reflexivity.
Qed.

Lemma run_http_query_batch_inv
    schema request_method items query_data batch_enabled catch responses all_params :
  outcome (run_http_query schema request_method (PList items) query_data
             batch_enabled catch) = Ok (responses, all_params) ->
  rmap (fun entry => get_graphql_params entry []) items = Ok all_params
  /\ outcome (mapM (fun params =>
                      get_response schema params (catch_class catch)
                        (request_method =? "get"))
                   all_params) = Ok responses.
Proof.
  destruct (method_supported request_method) eqn:Hm.
  2:{ unfold run_http_query. rewrite Hm. discriminate. }
  destruct batch_enabled.
  2:{ unfold run_http_query. rewrite Hm. discriminate. }
  destruct items as [|i items].
  { unfold run_http_query. rewrite Hm. discriminate. }
  rewrite run_http_query_batch by (assumption || discriminate).
  unfold bind, lift, ret, outcome.
  destruct (rmap _ (i :: items)) as [ps|e]; cbn beta iota delta [fst snd];
    [|discriminate].
  destruct (mapM _ ps) as [t [rs|e]] eqn:Hrun; cbn beta iota delta [fst snd];
    [|discriminate].
  intros [= <- <-]. now rewrite Hrun.
Qed.

End BatchProperties.

Section BatchClaims.
Context {E : GraphQLEngine} {L : PyLib}.

(** C9: [run_http_query] accepts exactly the strings ["get"] and ["post"]
    as methods; for any other method string it raises
    [HttpQueryError(405, "GraphQL only supports GET and POST requests.",
    headers={"Allow": "GET, POST"})] whatever the payload, the query data
    and the options are, and without any engine call. *)
Theorem C9_other_methods_are_rejected
    schema request_method payload query_data batch_enabled catch :
  request_method <> "get" ->
  request_method <> "post" ->
  run_http_query schema request_method payload query_data batch_enabled catch
  = ([], Raise (HttpQueryError 405
                  "GraphQL only supports GET and POST requests."
                  (Some [("Allow", "GET, POST")]))).
Proof.
  intros Hget Hpost. unfold run_http_query, method_supported.
  destruct (String.eqb_spec request_method "get"); [contradiction|].
  destruct (String.eqb_spec request_method "post"); [contradiction|].
  reflexivity.
Qed.

(** C2, as the code has it: on a batch that passes the method, batch-switch
    and emptiness checks,
    - an exception raised while an item's parameters are extracted (invalid
      variables JSON) leaves [run_http_query] whatever [catch] is, before
      any item is executed;
    - otherwise, with [catch] true every item is executed, in order, and the
      slot of an item whose execution raised holds [None];
    - with [catch] false the first exception raised by an item's execution
      leaves [run_http_query]; the items after it are not executed. *)
Theorem C2_containment_covers_execution_only
    schema request_method items query_data :
  method_supported request_method = true ->
  items <> [] ->
  (forall e catch,
     rmap (fun entry => get_graphql_params entry []) items = Raise e ->
     run_http_query schema request_method (PList items) query_data true catch
     = ([], Raise e))
  /\ (forall all_params,
        rmap (fun entry => get_graphql_params entry []) items = Ok all_params ->
        run_http_query schema request_method (PList items) query_data true true
        = (flat_map
             (fun params =>
                trace (execute_graphql_request schema params
                         (request_method =? "get")))
             all_params,
           Ok (map (fun params =>
                      item_outcome schema params (request_method =? "get"))
                   all_params,
               all_params)))
  /\ (forall all_params pre params post e,
        rmap (fun entry => get_graphql_params entry []) items = Ok all_params ->
        all_params = pre ++ params :: post ->
        (forall p, In p pre ->
           exists r, outcome (execute_graphql_request schema p
                                (request_method =? "get")) = Ok r) ->
        outcome (execute_graphql_request schema params (request_method =? "get"))
        = Raise e ->
        run_http_query schema request_method (PList items) query_data true false
        = (flat_map
             (fun p =>
                trace (execute_graphql_request schema p (request_method =? "get")))
             (pre ++ [params]),
           Raise e)).
Proof.
  intros Hm Hne. split; [|split].
  - intros e catch He. rewrite run_http_query_batch by assumption.
    rewrite He. reflexivity.
  - intros all_params Hps. rewrite run_http_query_batch by assumption.
    rewrite Hps, bind_lift_ok. cbn [catch_class].
    rewrite (mapM_all_ok _ (fun params =>
               item_outcome schema params (request_method =? "get")))
      by (intros; apply get_response_contained).
    unfold bind, ret. cbn [fst snd]. rewrite ?app_nil_r, ?app_nil_l.
    f_equal. apply flat_map_ext. intros p. apply get_response_trace.
  - intros all_params pre params post e Hps -> Hpre Hp.
    rewrite run_http_query_batch by assumption.
    rewrite Hps, bind_lift_ok. cbn [catch_class].
    rewrite (mapM_first_raise _ pre params post e).
    + unfold bind. cbn [fst snd]. rewrite ?app_nil_l. f_equal.
      apply flat_map_ext. intros p. apply get_response_trace.
    + intros p Hin. destruct (Hpre p Hin) as [r Hr].
      exists (Some r). now rewrite get_response_propagating, Hr.
    + now rewrite get_response_propagating, Hp.
Qed.

End BatchClaims.

Section BatchWitnesses.
Import Demo.

Lemma C9_witness :
  "GET" <> "get" /\ "GET" <> "post" /\ "POST" <> "get" /\ "POST" <> "post"
  /\ run_http_query tt "GET" (PDict [("query", PStr "{ __typename }")])
       None false false
     = ([], Raise (HttpQueryError 405
                     "GraphQL only supports GET and POST requests."
                     (Some [("Allow", "GET, POST")])))
  /\ run_http_query tt "POST" (PInt 3) None true true
     = ([], Raise (HttpQueryError 405
                     "GraphQL only supports GET and POST requests."
                     (Some [("Allow", "GET, POST")]))).
Proof.
  repeat (split; [discriminate|]).
  split; apply (C9_other_methods_are_rejected (E := engine) (L := pylib));
    discriminate.
Defined.

(** C2 as stated fails: with [catch] true, the [HttpQueryError] of an item
    whose variables are not valid JSON is not turned into a [None] slot; it
    leaves [run_http_query], and the well-formed second item is never
    executed. *)
Lemma C2_counterexample :
  run_http_query tt "post"
    (PList [PDict [("query", PStr "{ a }"); ("variables", PStr "{bad")];
            PDict [("query", PStr "{ b }")]])
    None true true
  = ([], Raise (HttpQueryError 400 "Variables are invalid JSON." None))
  /\ forall responses all_params,
       outcome (run_http_query tt "post"
                  (PList [PDict [("query", PStr "{ a }");
                                 ("variables", PStr "{bad")];
                          PDict [("query", PStr "{ b }")]])
                  None true true)
       <> Ok (responses, all_params).
Proof.
  split; [vm_compute; reflexivity|].
  intros responses all_params. vm_compute. discriminate.
Qed.

Lemma C2_witness :
  method_supported "post" = true
  /\ demo_batch <> []
  /\ run_http_query tt "post" (PList demo_batch) None true true
     = ([CallParse (PStr "bad syntax {");
         CallParse (PStr "{ __typename }");
         CallValidate tt QUERY;
         CallExecute tt QUERY (PDict []) PNone],
        Ok ([Some (mkExecutionResult PNone
                     (Some ["Syntax Error: Unexpected Name."]));
             None;
             Some (mkExecutionResult (PDict [("__typename", PStr "Query")])
                     None)],
            [mkGraphQLParams (PStr "bad syntax {") PNone PNone;
             mkGraphQLParams PNone PNone PNone;
             mkGraphQLParams (PStr "{ __typename }") (PDict []) PNone]))
  /\ run_http_query tt "post" (PList demo_batch) None true false
     = ([CallParse (PStr "bad syntax {")],
        Raise (HttpQueryError 400 "Must provide query string." None)).
Proof.
  split; [reflexivity|]. split; [discriminate|].
  destruct (C2_containment_covers_execution_only (E := engine) (L := pylib)
              tt "post" demo_batch None eq_refl ltac:(discriminate))
    as (_ & Hcatch & Hraise).
  split.
  - exact (Hcatch _ eq_refl).
  - exact (Hraise _ [mkGraphQLParams (PStr "bad syntax {") PNone PNone]
             (mkGraphQLParams PNone PNone PNone)
             [mkGraphQLParams (PStr "{ __typename }") (PDict []) PNone]
             _ eq_refl eq_refl
             ltac:(intros p [<- | []]; eexists; reflexivity) eq_refl).
Defined.

End BatchWitnesses.

(** ** The result encoder *)

Section EncoderProperties.
Context {E : GraphQLEngine} {L : PyLib}.

Lemma has_errors_list (er : ExecResult) :
  has_errors er = match errors_list er with [] => false | _ => true end.
Proof.
  unfold has_errors, errors_list. destruct (errors er) as [[|]|]; reflexivity.
Qed.

(** With no formatter passed, the default one formats the errors. *)
Lemma format_execution_result_default r :
  format_execution_result r None
  = Ok (mkGraphQLResponse (spec_format_body format_error_default r) 200).
Proof.
  destruct r as [er|]; [|reflexivity].
  unfold format_execution_result, spec_format_body.
  rewrite has_errors_list. destruct (errors_list er); reflexivity.
Qed.

(** An outcome without errors is formatted the same whatever is passed. *)
Lemma format_execution_result_clean er fe f :
  has_errors er = false ->
  format_execution_result (Some er) fe
  = Ok (mkGraphQLResponse (spec_format_body f (Some er)) 200).
Proof.
  intros H. unfold format_execution_result, spec_format_body. rewrite H.
  rewrite has_errors_list in H. destruct (errors_list er);
    [reflexivity | discriminate].
Qed.

Lemma format_execution_result_suppressed fe :
  format_execution_result None fe = Ok (mkGraphQLResponse PNone 200).
Proof. reflexivity. Qed.

(** With a formatter passed, [format_errors] is read unbound. *)
Lemma format_execution_result_unbound er f :
  has_errors er = true ->
  format_execution_result (Some er) (Some f) = Raise (NameError "format_errors").
Proof.
  intros H. unfold format_execution_result. now rewrite H.
Qed.

Lemma format_execution_result_raises r fe e :
  format_execution_result r fe = Raise e -> e = NameError "format_errors".
Proof.
  destruct fe as [f|]; [|now rewrite format_execution_result_default].
  destruct r as [er|]; [|discriminate].
  destruct (has_errors er) eqn:H.
  - rewrite format_execution_result_unbound by assumption. now intros [= <-].
  - now rewrite (format_execution_result_clean er (Some f) f) by assumption.
Qed.

Lemma format_execution_result_ok_body r fe resp :
  format_execution_result r fe = Ok resp ->
  resp = mkGraphQLResponse
           (spec_format_body
              (match fe with Some f => f | None => format_error_default end) r)
           200.
Proof.
  destruct fe as [f|].
  - destruct r as [er|]; [|now intros [= <-]].
    destruct (has_errors er) eqn:H.
    + now rewrite format_execution_result_unbound by assumption.
    + rewrite (format_execution_result_clean er (Some f) f) by assumption.
      now intros [= <-].
  - rewrite format_execution_result_default. now intros [= <-].
Qed.

Lemma rmap_all_ok {A B} (f : A -> completion B) (g : A -> B) l :
  (forall x, In x l -> f x = Ok (g x)) -> rmap f l = Ok (map g l).
Proof.
  induction l as [|x l IH]; intros H; [reflexivity|].
  cbn [rmap map]. rewrite (H x (or_introl eq_refl)). cbn [rbind].
  rewrite IH by (intros y Hy; apply H; now right). reflexivity.
Qed.

Lemma rmap_raise_in {A B} (f : A -> completion B) l x e0 :
  In x l -> f x = Raise e0 -> exists e, rmap f l = Raise e.
Proof.
  induction l as [|y l IH]; intros Hin Hx; [contradiction|].
  cbn [rmap]. destruct Hin as [-> | Hin].
  - rewrite Hx. cbn [rbind]. eauto.
  - destruct (f y); cbn [rbind]; [|eauto].
    destruct (IH Hin Hx) as [e ->]. cbn [rbind]. eauto.
Qed.

Lemma rmap_raise_inv {A B} (f : A -> completion B) l e :
  rmap f l = Raise e -> exists x, In x l /\ f x = Raise e.
Proof.
  induction l as [|y l IH]; cbn [rmap]; [discriminate|].
  destruct (f y) eqn:Hy; cbn [rbind].
  - destruct (rmap f l); cbn [rbind]; [discriminate|].
    intros [= <-]. destruct (IH eq_refl) as (x & Hin & Hx).
    exists x. split; [now right | assumption].
  - intros [= <-]. exists y. split; [now left | assumption].
Qed.

(** [py_max] is the maximum of the codes it is given. *)
Lemma py_max_spec x xs :
  In (py_max x xs) (x :: xs) /\ forall y, In y (x :: xs) -> (y <= py_max x xs)%Z.
Proof.
  unfold py_max. revert x. induction xs as [|z xs IH]; intros x; cbn [fold_left].
  - split; [now left|]. intros y [<- | []]. lia.
  - destruct (IH (Z.max x z)) as [Hin Hle]. split.
    + destruct Hin as [Hin | Hin]; [|now right; right].
      rewrite <- Hin. destruct (Z.max_spec x z) as [[_ ->] | [_ ->]];
        [right; now left | now left].
    + intros y [<- | [<- | Hy]].
      * etransitivity; [apply Z.le_max_l | apply Hle; now left].
      * etransitivity; [apply Z.le_max_r | apply Hle; now left].
      * apply Hle. now right.
Qed.

Lemma py_max_all_200 x xs :
  (forall y, In y (x :: xs) -> y = 200%Z) -> py_max x xs = 200%Z.
Proof.
  intros H. apply H. apply py_max_spec.
Qed.

(** Whenever the encoder returns: the status is the maximum of the
    per-item statuses (all 200), and the encoded body is the tuple of item
    bodies for a batch, the first item's body otherwise. *)
Lemma encode_execution_results_ok_inv {R : Type}
    execution_results fe is_batch (encode : pyval -> R) body code :
  encode_execution_results execution_results fe is_batch encode
  = Ok (body, code) ->
  exists r0 rest resp0 resps,
    execution_results = r0 :: rest
    /\ rmap (fun r => format_execution_result r fe) execution_results
       = Ok (resp0 :: resps)
    /\ code = py_max (status_code resp0) (map status_code resps)
    /\ code = 200%Z
    /\ body
       = encode
           (if is_batch
            then PTuple (map (spec_format_body
                                (match fe with
                                 | Some f => f
                                 | None => format_error_default
                                 end))
                             execution_results)
            else spec_format_body
                   (match fe with
                    | Some f => f
                    | None => format_error_default
                    end) r0).
Proof.
  unfold encode_execution_results.
  destruct (rmap _ execution_results) as [resps|e] eqn:Hfmt; cbn [rbind];
    [|discriminate].
  destruct resps as [|resp0 resps]; [discriminate|].
  intros [= <- <-].
  pose proof (rmap_ok_inv _ _ _ Hfmt) as HF.
  destruct execution_results as [|r0 rest]; [inversion HF|].
  exists r0, rest, resp0, resps.
  assert (Hall : Forall2 (fun r resp =>
                   resp = mkGraphQLResponse
                            (spec_format_body
                               (match fe with
                                | Some f => f
                                | None => format_error_default
                                end) r) 200)
                 (r0 :: rest) (resp0 :: resps)).
  { eapply Forall2_impl; [|exact HF]. cbv beta.
    intros a b. apply format_execution_result_ok_body. }
  assert (Hbodies : map result (resp0 :: resps)
                    = map (spec_format_body
                             (match fe with
                              | Some f => f
                              | None => format_error_default
                              end)) (r0 :: rest)).
  { clear -Hall. induction Hall as [|a b l l' Hab _ IH]; [reflexivity|].
    cbn [map]. rewrite IH, Hab. reflexivity. }
  assert (Hcodes : forall y, In y (map status_code (resp0 :: resps)) -> y = 200%Z).
  { clear -Hall. induction Hall as [|a b l l' Hab _ IH]; [contradiction|].
    cbn [map]. intros y [<- | Hy]; [now rewrite Hab | now apply IH]. }
  split; [reflexivity|]. split; [reflexivity|]. split; [reflexivity|]. split.
  - apply py_max_all_200. exact Hcodes.
  - f_equal. destruct is_batch; cbn [negb].
    + rewrite <- Hbodies. reflexivity.
    + inversion Hall; subst. reflexivity.
Qed.

(** The status and the shape of the body, read off the inversion above. *)
Lemma encode_execution_results_ok_shape {R : Type}
    execution_results fe is_batch (encode : pyval -> R) body code :
  encode_execution_results execution_results fe is_batch encode
  = Ok (body, code) ->
  code = 200%Z
  /\ exists encoded,
       body = encode encoded /\ is_sequence encoded = is_batch.
Proof.
  intros H.
  apply encode_execution_results_ok_inv
    in H as (r0 & rest & resp0 & resps & -> & _ & _ & Hsc & ->).
  split; [assumption|]. eexists. split; [reflexivity|].
  destruct is_batch; [reflexivity|].
  destruct r0 as [er|]; [|reflexivity].
  unfold spec_format_body. destruct (errors_list er); reflexivity.
Qed.

(** Encoding with no formatter: one body per outcome, status 200. *)
Lemma encode_without_formatter {R : Type} r0 rest is_batch (encode : pyval -> R) :
  encode_execution_results (r0 :: rest) None is_batch encode
  = Ok (encode
          (if is_batch
           then PTuple (map (spec_format_body format_error_default) (r0 :: rest))
           else spec_format_body format_error_default r0),
        200%Z).
Proof.
  unfold encode_execution_results.
  rewrite (rmap_all_ok _ (fun r => mkGraphQLResponse
                                     (spec_format_body format_error_default r) 200))
    by (intros; apply format_execution_result_default).
  cbn [rbind map]. f_equal. f_equal.
  - destruct is_batch; cbn [negb result nth]; [|reflexivity].
    f_equal. f_equal. rewrite map_map. reflexivity.
  - apply py_max_all_200. intros y Hy.
    change (status_code (mkGraphQLResponse
              (spec_format_body format_error_default r0) 200)
            :: map status_code
                 (map (fun r => mkGraphQLResponse
                                  (spec_format_body format_error_default r) 200)
                      rest))
      with (map status_code
              (map (fun r => mkGraphQLResponse
                               (spec_format_body format_error_default r) 200)
                   (r0 :: rest))) in Hy.
    rewrite map_map in Hy. apply in_map_iff in Hy as (x & <- & _). reflexivity.
Qed.

End EncoderProperties.

Section EncoderClaims.
Context {E : GraphQLEngine} {L : PyLib}.

(** C1 on the code: for an executed outcome with a non-empty errors list
    and any caller-supplied formatter [f], [format_execution_result] does
    not return [{"errors": [f(e) for e in errors]}]; it raises [NameError],
    because [format_errors] is bound only when no formatter is passed. *)
Theorem C1_supplied_formatter_is_read_unbound (er : ExecResult) f :
  has_errors er = true ->
  format_execution_result (Some er) (Some f) = Raise (NameError "format_errors")
  /\ format_execution_result (Some er) (Some f)
     <> Ok (mkGraphQLResponse (spec_format_body f (Some er)) 200).
Proof.
  intros H. rewrite format_execution_result_unbound by assumption.
  split; [reflexivity | discriminate].
Qed.

(** C4 on the code: when a formatter is passed and some outcome carries
    errors, [encode_execution_results] returns neither a status code nor a
    body; it raises the [NameError] of [format_execution_result]. *)
Theorem C4_encoder_raises_on_errors {R : Type}
    execution_results (er : ExecResult) f is_batch (encode : pyval -> R) :
  In (Some er) execution_results ->
  has_errors er = true ->
  encode_execution_results execution_results (Some f) is_batch encode
  = Raise (NameError "format_errors").
Proof.
  intros Hin Herr. unfold encode_execution_results.
  destruct (rmap_raise_in (fun r => format_execution_result r (Some f))
              execution_results (Some er) (NameError "format_errors") Hin
              (format_execution_result_unbound er f Herr)) as [e He].
  rewrite He. cbn [rbind]. f_equal.
  apply rmap_raise_inv in He as (x & _ & Hx).
  now apply format_execution_result_raises in Hx.
Qed.

(** With no formatter passed, the encoder returns for every non-empty list
    of outcomes: status 200, and as body the tuple of item bodies for a
    batch, the first item's body (never a sequence) otherwise. *)
Theorem encode_execution_results_default_formatter {R : Type}
    r0 rest is_batch (encode : pyval -> R) :
  encode_execution_results (r0 :: rest) None is_batch encode
  = Ok (encode
          (if is_batch
           then PTuple (map (spec_format_body format_error_default) (r0 :: rest))
           else spec_format_body format_error_default r0),
        200%Z)
  /\ is_sequence (spec_format_body format_error_default r0) = false.
Proof.
  split.
  - unfold encode_execution_results.
    rewrite (rmap_all_ok _ (fun r => mkGraphQLResponse
                                       (spec_format_body format_error_default r) 200))
      by (intros; apply format_execution_result_default).
    cbn [rbind map]. f_equal. f_equal.
    + destruct is_batch; cbn [negb result]; [|reflexivity].
      f_equal. f_equal. rewrite map_map. reflexivity.
    + apply py_max_all_200. intros y Hy.
      change (status_code (mkGraphQLResponse
                (spec_format_body format_error_default r0) 200)
              :: map status_code
                   (map (fun r => mkGraphQLResponse
                                    (spec_format_body format_error_default r) 200)
                        rest))
        with (map status_code
                (map (fun r => mkGraphQLResponse
                                 (spec_format_body format_error_default r) 200)
                     (r0 :: rest))) in Hy.
      rewrite map_map in Hy. apply in_map_iff in Hy as (x & <- & _). reflexivity.
  - destruct r0 as [er|]; [|reflexivity].
    unfold spec_format_body. destruct (errors_list er); reflexivity.
Qed.

(** Whenever the encoder returns, whatever formatter was passed: the status
    is 200, the maximum of the per-item statuses, and the encoded body is a
    tuple exactly for a batch. *)
Theorem encode_execution_results_shape {R : Type}
    execution_results fe is_batch (encode : pyval -> R) body code :
  encode_execution_results execution_results fe is_batch encode
  = Ok (body, code) ->
  code = 200%Z
  /\ exists encoded,
       body = encode encoded /\ is_sequence encoded = is_batch.
Proof. apply encode_execution_results_ok_shape. Qed.

(** C3: whenever [run_http_query] returns on a list payload of length N
    (so the method, the batch switch, the emptiness check, every item's
    parameter extraction and, without containment, every item's execution
    have passed), it returns N outcomes and N parameter tuples; the i-th
    parameters are extracted from the i-th item and the i-th outcome is the
    slot of executing them.  Encoding these outcomes as a batch with no
    formatter returns, with status 200, the tuple of N bodies whose i-th
    element is the body of the i-th outcome; and with any formatter,
    whenever [encode_execution_results] returns, the encoded body is the
    tuple of N bodies whose i-th element formats the i-th outcome. *)
Theorem C3_batch_preserves_length_and_order
    schema request_method items query_data batch_enabled catch
    responses all_params :
  outcome (run_http_query schema request_method (PList items) query_data
             batch_enabled catch) = Ok (responses, all_params) ->
  List.length responses = List.length items
  /\ List.length all_params = List.length items
  /\ (forall i entry,
        nth_error items i = Some entry ->
        exists params,
          get_graphql_params entry [] = Ok params
          /\ nth_error all_params i = Some params
          /\ nth_error responses i
             = Some (item_outcome schema params (request_method =? "get")))
  /\ (forall (R : Type) (encode : pyval -> R),
        encode_execution_results responses None true encode
        = Ok (encode
                (PTuple (map (spec_format_body format_error_default) responses)),
              200%Z))
  /\ List.length (map (spec_format_body format_error_default) responses)
     = List.length items
  /\ (forall i entry,
        nth_error items i = Some entry ->
        exists params,
          get_graphql_params entry [] = Ok params
          /\ nth_error (map (spec_format_body format_error_default) responses) i
             = Some (spec_format_body format_error_default
                       (item_outcome schema params (request_method =? "get"))))
  /\ (forall (R : Type) format_error (encode : pyval -> R) body code,
        encode_execution_results responses format_error true encode
        = Ok (body, code) ->
        exists results,
          body = encode (PTuple results)
          /\ List.length results = List.length items
          /\ forall i r,
               nth_error responses i = Some r ->
               exists resp,
                 format_execution_result r format_error = Ok resp
                 /\ nth_error results i = Some (result resp)).
Proof.
  intros H.
  assert (Hne : items <> []).
  { intros ->. revert H. unfold run_http_query.
    destruct (method_supported request_method); [|discriminate].
    destruct batch_enabled; discriminate. }
  apply run_http_query_batch_inv in H as [Hps Hrs].
  apply rmap_ok_inv in Hps. apply mapM_ok_inv in Hrs.
  pose proof (Forall2_length Hps) as Hlen1.
  pose proof (Forall2_length Hrs) as Hlen2.
  assert (Hslots : forall i entry,
            nth_error items i = Some entry ->
            exists params,
              get_graphql_params entry [] = Ok params
              /\ nth_error all_params i = Some params
              /\ nth_error responses i
                 = Some (item_outcome schema params (request_method =? "get"))).
  { intros i entry Hi.
    destruct (Forall2_nth_error_l _ _ _ _ _ Hps Hi) as (params & Hpi & Hp).
    destruct (Forall2_nth_error_l _ _ _ _ _ Hrs Hpi) as (r & Hri & Hr).
    exists params. repeat split; try assumption.
    rewrite Hri. f_equal. eapply get_response_ok; eassumption. }
  split; [congruence|]. split; [congruence|]. split; [exact Hslots|].
  split; [|split; [|split]].
  - intros R encode. destruct responses as [|r0 rest].
    + destruct items; [contradiction | cbn in *; congruence].
    + apply (encode_without_formatter r0 rest true encode).
  - rewrite length_map. congruence.
  - intros i entry Hi. destruct (Hslots i entry Hi) as (params & Hp & _ & Hr).
    exists params. split; [assumption|]. now rewrite nth_error_map, Hr.
  - intros R format_error encode body code Henc.
    unfold encode_execution_results in Henc.
    destruct (rmap _ responses) as [resps|e] eqn:Hfmt; cbn [rbind] in Henc;
      [|discriminate].
    apply rmap_ok_inv in Hfmt.
    pose proof (Forall2_length Hfmt) as Hlen3.
    destruct resps as [|r0 rs]; [discriminate|].
    cbn [negb] in Henc. injection Henc as <- _.
    exists (map result (r0 :: rs)). split; [reflexivity|]. split.
    + rewrite length_map. congruence.
    + intros i r Hi.
      destruct (Forall2_nth_error_l _ _ _ _ _ Hfmt Hi) as (resp & Hri & Hr).
      exists resp. split; [assumption|].
      now rewrite nth_error_map, Hri.
Qed.

End EncoderClaims.

Section EncoderWitnesses.
Import Demo.

Lemma C1_witness :
  has_errors (mkExecutionResult PNone (Some ["boom"])) = true
  /\ format_execution_result (Some (mkExecutionResult PNone (Some ["boom"])))
       (Some custom_format_error)
     = Raise (NameError "format_errors").
Proof.
  split; [reflexivity|].
  exact (proj1 (C1_supplied_formatter_is_read_unbound (E := engine)
                  (mkExecutionResult PNone (Some ["boom"]))
                  custom_format_error eq_refl)).
Defined.

Lemma C4_witness :
  In (Some (mkExecutionResult PNone (Some ["boom"])))
     [Some (mkExecutionResult (PDict [("__typename", PStr "Query")]) None);
      Some (mkExecutionResult PNone (Some ["boom"]))]
  /\ has_errors (mkExecutionResult PNone (Some ["boom"])) = true
  /\ encode_execution_results
       [Some (mkExecutionResult (PDict [("__typename", PStr "Query")]) None);
        Some (mkExecutionResult PNone (Some ["boom"]))]
       (Some custom_format_error) true (fun body => json_encode body false)
     = Raise (NameError "format_errors").
Proof.
  split; [right; left; reflexivity|]. split; [reflexivity|].
  apply (C4_encoder_raises_on_errors (E := engine)
           _ (mkExecutionResult PNone (Some ["boom"])));
    [right; left; reflexivity | reflexivity].
Defined.

Lemma encode_execution_results_shape_witness :
  encode_execution_results
    [Some (mkExecutionResult (PDict [("__typename", PStr "Query")]) None)]
    (Some custom_format_error) false (fun body => json_encode body false)
  = Ok (json_encode (PDict [("data", PDict [("__typename", PStr "Query")])]) false,
        200%Z)
  /\ 200%Z = 200%Z.
Proof.
  split; [reflexivity|].
  exact (proj1 (encode_execution_results_shape (E := engine)
                  [Some (mkExecutionResult
                           (PDict [("__typename", PStr "Query")]) None)]
                  (Some custom_format_error) false
                  (fun body => json_encode body false) _ _ eq_refl)).
Defined.

Lemma C3_witness :
  outcome (run_http_query tt "post" (PList demo_batch) None true true)
  = Ok ([Some (mkExecutionResult PNone
                 (Some ["Syntax Error: Unexpected Name."]));
         None;
         Some (mkExecutionResult (PDict [("__typename", PStr "Query")]) None)],
        [mkGraphQLParams (PStr "bad syntax {") PNone PNone;
         mkGraphQLParams PNone PNone PNone;
         mkGraphQLParams (PStr "{ __typename }") (PDict []) PNone])
  /\ List.length
       [Some (mkExecutionResult PNone (Some ["Syntax Error: Unexpected Name."]));
        None;
        Some (mkExecutionResult (PDict [("__typename", PStr "Query")]) None)]
     = List.length demo_batch
  /\ encode_execution_results
       [Some (mkExecutionResult PNone (Some ["Syntax Error: Unexpected Name."]));
        None;
        Some (mkExecutionResult (PDict [("__typename", PStr "Query")]) None)]
       None true (fun body => body)
     = Ok (PTuple
             [PDict [("errors",
                      PList [PDict [("message",
                                     PStr "Syntax Error: Unexpected Name.")]])];
              PNone;
              PDict [("data", PDict [("__typename", PStr "Query")])]],
           200%Z).
Proof.
  split; [reflexivity|].
  destruct (C3_batch_preserves_length_and_order (E := engine) (L := pylib)
              tt "post" demo_batch None true true _ _ eq_refl)
    as (Hlen & _ & _ & Henc & _).
  split; [exact Hlen|]. exact (Henc pyval (fun body => body)).
Defined.

End EncoderWitnesses.

(** ** The reference JSON codec round-trips *)

Section JsonCodecFacts.
Import Json.

Lemma skip_ws_app_ws w r :
  forallb is_ws w = true -> skip_ws (w ++ r) = skip_ws r.
Proof.
  induction w as [|c w IH]; cbn; [reflexivity|].
  intros H. apply andb_true_iff in H as [Hc Hw]. rewrite Hc. auto.
Qed.

Lemma skip_ws_head c r : is_ws c = false -> skip_ws (c :: r) = c :: r.
Proof. intros H. cbn. now rewrite H. Qed.

Lemma newline_indent_ws indent level :
  forallb is_ws (newline_indent indent level) = true.
Proof.
  destruct indent as [w|]; [|reflexivity]. cbn.
  induction (w * level) as [|n IH]; [reflexivity|]. exact IH.
Qed.

(** Every character, however it is escaped, is read back as itself. *)
Lemma load_string_escape c r acc :
  load_string (escape_char c ++ r) acc = load_string r (c :: acc).
Proof.
  destruct c as [[] [] [] [] [] [] [] []]; reflexivity.
Qed.

Lemma load_string_escaped cs rest acc :
  load_string (flat_map escape_char cs ++ dquote :: rest) acc
  = Some (string_of_list_ascii (rev acc ++ cs), rest).
Proof.
  revert acc. induction cs as [|c cs IH]; intros acc.
  - cbn. now rewrite List.app_nil_r.
  - cbn [flat_map]. rewrite <- app_assoc, load_string_escape, IH.
    cbn [rev]. now rewrite <- app_assoc.
Qed.

Lemma load_string_dump s rest :
  exists body,
    dump_string s ++ rest = dquote :: body
    /\ load_string body [] = Some (s, rest).
Proof.
  unfold dump_string. eexists. split.
  - cbn [app]. rewrite <- app_assoc. reflexivity.
  - cbn [app]. rewrite load_string_escaped. cbn [rev app].
    now rewrite string_of_list_ascii_of_string.
Qed.

Lemma load_uint_chars d rest :
  no_digit_ahead rest -> load_uint (uint_chars d ++ rest) = (d, rest).
Proof.
  intros Hrest. induction d; cbn [uint_chars app load_uint];
    try (cbn [digit_of Ascii.eqb Bool.eqb]; rewrite IHd; reflexivity).
  destruct rest as [|c r]; [reflexivity|]. cbn in *. now rewrite Hrest.
Qed.

Lemma to_int_normal n : Decimal.norm (Z.to_int n) = Z.to_int n.
Proof. now rewrite <- (DecimalZ.to_of (Z.to_int n)), DecimalZ.of_to. Qed.

(** The decimal writing of an integer has a digit and no leading zero. *)
Lemma to_int_digits n :
  match Z.to_int n with
  | Decimal.Pos d | Decimal.Neg d => d <> Decimal.Nil /\ Decimal.unorm d = d
  end.
Proof.
  pose proof (to_int_normal n) as Hn.
  destruct n as [|p|p]; cbn in *.
  - split; [discriminate | reflexivity].
  - split; [apply DecimalPos.Unsigned.to_uint_nonnil | congruence].
  - split; [apply DecimalPos.Unsigned.to_uint_nonnil|].
    unfold Decimal.unorm.
    destruct (Decimal.nzhead (Pos.to_uint p)); congruence.
Qed.

Lemma load_int_dump n rest :
  no_digit_ahead rest -> load_int (dump_int n ++ rest) = Some (n, rest).
Proof.
  intros Hrest. unfold dump_int, load_int.
  pose proof (to_int_digits n) as Hd. pose proof (DecimalZ.of_to n) as Hn.
  destruct (Z.to_int n) as [d|d]; destruct Hd as [Hnil Hnorm].
  - assert (Hhead : match uint_chars d ++ rest with
                    | c :: r => (if Ascii.eqb c "-"%char then (true, r)
                                 else (false, uint_chars d ++ rest))
                    | [] => (false, [])
                    end = (false, uint_chars d ++ rest)).
    { destruct d; try reflexivity. contradiction. }
    rewrite Hhead, load_uint_chars by assumption.
    rewrite Hnorm, Decimal.internal_uint_dec_lb by reflexivity.
    rewrite Hn. destruct d; try reflexivity. contradiction.
  - cbn [app Ascii.eqb Bool.eqb]. rewrite load_uint_chars by assumption.
    rewrite Hnorm, Decimal.internal_uint_dec_lb by reflexivity.
    rewrite Hn. destruct d; try reflexivity. contradiction.
Qed.

Lemma load_value_skip_ws fuel w t :
  forallb is_ws w = true -> load_value fuel (w ++ t) = load_value fuel t.
Proof.
  intros Hw. destruct fuel; [reflexivity|].
  cbn [load_value]. now rewrite skip_ws_app_ws.
Qed.

Lemma value_start_facts c :
  value_start c ->
  is_ws c = false /\ Ascii.eqb c "]"%char = false
  /\ Ascii.eqb c "}"%char = false /\ Ascii.eqb c ","%char = false.
Proof.
  intros [H | ->]; [|now vm_compute].
  cbn in H. repeat (destruct H as [<- | H]; [now vm_compute|]). contradiction.
Qed.

Lemma uint_chars_head d :
  d <> Decimal.Nil ->
  exists c tl, uint_chars d = c :: tl
               /\ In c (list_ascii_of_string "0123456789").
Proof.
  destruct d; [contradiction| | | | | | | | | |]; intros _;
    eexists _, _; (split; [reflexivity|]); cbn; tauto.
Qed.

Lemma dump_int_head n :
  exists c tl, dump_int n = c :: tl
               /\ In c (list_ascii_of_string "-0123456789").
Proof.
  unfold dump_int. pose proof (to_int_digits n) as Hd.
  destruct (Z.to_int n) as [d|d]; destruct Hd as [Hnil _].
  - destruct (uint_chars_head d Hnil) as (c & tl & -> & Hin).
    exists c, tl. split; [reflexivity|]. now right.
  - eexists _, _. split; [reflexivity|]. now left.
Qed.

(** A dump is never empty, and starts like a JSON value. *)
Lemma dump_head indent item_sep key_sep level v :
  exists c tl, dump indent item_sep key_sep level v = c :: tl /\ value_start c.
Proof.
  unfold value_start.
  destruct v as [|[]|n|s|l|l|d]; cbn [dump];
    try (eexists _, _; split; [reflexivity|]; cbn; tauto).
  - destruct (dump_int_head n) as (c & tl & -> & Hin).
    exists c, tl. split; [reflexivity|]. left. cbn in *. tauto.
  - unfold dump_items. destruct l; cbn [map];
      eexists _, _; (split; [reflexivity|]); cbn; tauto.
  - unfold dump_items. destruct l; cbn [map];
      eexists _, _; (split; [reflexivity|]); cbn; tauto.
  - unfold dump_items. destruct d; cbn [map];
      eexists _, _; (split; [reflexivity|]); cbn; tauto.
Qed.

Lemma ws_not_digit c : is_ws c = true -> digit_of c = None.
Proof.
  destruct c as [[] [] [] [] [] [] [] []]; cbn; intros H;
    try discriminate; reflexivity.
Qed.

Lemma no_digit_ahead_ws w c r :
  forallb is_ws w = true -> digit_of c = None -> no_digit_ahead (w ++ c :: r).
Proof.
  destruct w as [|a w]; cbn; [auto|].
  intros H _. apply andb_true_iff in H as [Ha _]. now apply ws_not_digit.
Qed.

Lemma distinct_app_mid l1 k l2 :
  distinct (l1 ++ k :: l2) = true -> existsb (String.eqb k) l1 = false.
Proof.
  induction l1 as [|a l1 IH]; cbn; [reflexivity|].
  intros H. apply andb_true_iff in H as [Ha Hd].
  rewrite IH by assumption. rewrite orb_false_r.
  apply negb_true_iff in Ha. rewrite existsb_app in Ha.
  apply orb_false_iff in Ha as [_ Ha]. cbn in Ha.
  apply orb_false_iff in Ha as [Ha _]. now rewrite String.eqb_sym.
Qed.

Lemma dict_set_fresh acc k v :
  existsb (String.eqb k) (map fst acc) = false ->
  dict_set acc k v = acc ++ [(k, v)].
Proof.
  induction acc as [|[k' v'] acc IH]; cbn; [reflexivity|].
  intros H. apply orb_false_iff in H as [Hk Hacc].
  rewrite String.eqb_sym, Hk, IH by assumption. reflexivity.
Qed.

Lemma load_value_array fuel r :
  load_value (S fuel) ("["%char :: r)
  = match skip_ws r with
    | c' :: r' =>
        if Ascii.eqb c' "]"%char then Some (PList [], r')
        else match load_array fuel r [] with
             | Some (l, r'') => Some (PList l, r'')
             | None => None
             end
    | [] => None
    end.
Proof. reflexivity. Qed.

Lemma load_value_object fuel r :
  load_value (S fuel) ("{"%char :: r)
  = match skip_ws r with
    | c' :: r' =>
        if Ascii.eqb c' "}"%char then Some (PDict [], r')
        else match load_object fuel r [] with
             | Some (d, r'') => Some (PDict d, r'')
             | None => None
             end
    | [] => None
    end.
Proof. reflexivity. Qed.

Lemma load_value_string fuel r :
  load_value (S fuel) (dquote :: r)
  = match load_string r [] with
    | Some (s, r') => Some (PStr s, r')
    | None => None
    end.
Proof. reflexivity. Qed.

Lemma load_value_number fuel c r :
  In c (list_ascii_of_string "-0123456789") ->
  load_value (S fuel) (c :: r)
  = match load_int (c :: r) with
    | Some (n, r') => Some (PInt n, r')
    | None => None
    end.
Proof.
  cbn [list_ascii_of_string In]. intros H.
  repeat (destruct H as [<- | H]; [reflexivity|]). contradiction.
Qed.

Section Settings.
Variable indent : option nat.
Variable key_ws : list ascii.
Hypothesis key_ws_ws : forallb is_ws key_ws = true.

Local Abbreviation D := (dump indent [","%char] (":"%char :: key_ws)).
Local Abbreviation NL := (newline_indent indent).
Local Abbreviation RT := (round_trips indent key_ws).
Local Abbreviation items := (items_text indent).
Local Abbreviation entry := (entry_text indent key_ws).

Lemma items_text_tail level closing first others rest :
  items level closing first others ++ rest
  = NL (S level) ++ first
      ++ match others with
         | [] => NL level ++ closing :: rest
         | j :: others' => ","%char :: items level closing j others' ++ rest
         end.
Proof.
  unfold items_text. destruct others as [|j others']; cbn [flat_map].
  - cbn [app]. now rewrite <- !app_assoc.
  - rewrite <- !app_assoc. cbn [app]. now rewrite <- ?app_assoc.
Qed.

(** The loop over the items of a list. *)
Lemma load_array_items level xs :
  forall x acc fuel rest,
    Forall RT (x :: xs) ->
    forallb json_shaped (x :: xs) = true ->
    2 * List.length (items level "]"%char (D (S level) x)
                       (map (D (S level)) xs) ++ rest) + 1 < fuel ->
    load_array fuel
      (items level "]"%char (D (S level) x) (map (D (S level)) xs) ++ rest) acc
    = Some (acc ++ x :: xs, rest).
Proof.
  induction xs as [|x2 xs IH]; intros x acc fuel rest HRT Hshape Hfuel.
  - rewrite items_text_tail in *. cbn [map] in *.
    destruct fuel as [|fuel]; [lia|]. cbn [load_array].
    rewrite load_value_skip_ws by apply newline_indent_ws.
    inversion HRT as [|? ? Hx _]; subst.
    cbn [forallb] in Hshape. apply andb_true_iff in Hshape as [Hsx _].
    rewrite Hx; [|assumption| |].
    + rewrite skip_ws_app_ws by apply newline_indent_ws.
      rewrite skip_ws_head by reflexivity. reflexivity.
    + solve_len.
    + apply no_digit_ahead_ws; [apply newline_indent_ws | reflexivity].
  - rewrite items_text_tail in *. cbn [map] in *.
    destruct fuel as [|fuel]; [lia|]. cbn [load_array].
    rewrite load_value_skip_ws by apply newline_indent_ws.
    inversion HRT as [|? ? Hx HRT']; subst.
    cbn [forallb] in Hshape. apply andb_true_iff in Hshape as [Hsx Hshape'].
    rewrite Hx; [|assumption| |].
    + rewrite skip_ws_head by reflexivity. cbv beta iota.
      rewrite Ascii.eqb_refl.
      rewrite IH; [now rewrite <- app_assoc|assumption|assumption|].
      solve_len.
    + solve_len.
    + reflexivity.
Qed.

(** The loop over the entries of a mapping. *)
Lemma load_object_items level kvs :
  forall kv acc fuel rest,
    Forall (fun kv => RT (snd kv)) (kv :: kvs) ->
    forallb (fun kv => json_shaped (snd kv)) (kv :: kvs) = true ->
    distinct (map fst (acc ++ kv :: kvs)) = true ->
    2 * List.length (items level "}"%char (entry level kv)
                       (map (entry level) kvs) ++ rest) + 1 < fuel ->
    load_object fuel
      (items level "}"%char (entry level kv) (map (entry level) kvs) ++ rest) acc
    = Some (acc ++ kv :: kvs, rest).
Proof.
  induction kvs as [|kv2 kvs IH]; intros [k v] acc fuel rest HRT Hshape Hkeys Hfuel.
  - rewrite items_text_tail in *. cbn [map] in *.
    unfold entry_text in *. cbn [fst snd] in *.
    rewrite <- !app_assoc in *.
    destruct (load_string_dump k
                ((":"%char :: key_ws) ++ D (S level) v
                   ++ NL level ++ "}"%char :: rest)) as (body & Hbody & Hload).
    rewrite Hbody in *.
    destruct fuel as [|fuel]; [lia|]. cbn [load_object].
    rewrite skip_ws_app_ws by apply newline_indent_ws.
    rewrite skip_ws_head by reflexivity. cbv beta iota.
    rewrite Ascii.eqb_refl, Hload. cbn [app].
    rewrite skip_ws_head by reflexivity. cbv beta iota.
    rewrite Ascii.eqb_refl, load_value_skip_ws by assumption.
    inversion HRT as [|? ? Hv _]; subst. cbn [snd] in Hv.
    cbn [forallb snd] in Hshape. apply andb_true_iff in Hshape as [Hsv _].
    rewrite Hv; [|assumption| |].
    + rewrite skip_ws_app_ws by apply newline_indent_ws.
      rewrite skip_ws_head by reflexivity. cbv beta iota.
      change (Ascii.eqb "}"%char ","%char) with false. cbv iota.
      rewrite Ascii.eqb_refl, dict_set_fresh; [reflexivity|].
      rewrite map_app in Hkeys. now apply distinct_app_mid in Hkeys.
    + apply (f_equal (@List.length ascii)) in Hbody. solve_len.
    + apply no_digit_ahead_ws; [apply newline_indent_ws | reflexivity].
  - rewrite items_text_tail in *. cbn [map] in *.
    unfold entry_text at 1 in Hfuel. unfold entry_text at 1. cbn [fst snd] in *.
    rewrite <- !app_assoc in *.
    destruct (load_string_dump k
                ((":"%char :: key_ws) ++ D (S level) v
                   ++ ","%char
                      :: items level "}"%char (entry level kv2)
                           (map (entry level) kvs) ++ rest))
      as (body & Hbody & Hload).
    rewrite Hbody in *.
    destruct fuel as [|fuel]; [lia|]. cbn [load_object].
    rewrite skip_ws_app_ws by apply newline_indent_ws.
    rewrite skip_ws_head by reflexivity. cbv beta iota.
    rewrite Ascii.eqb_refl, Hload. cbn [app].
    rewrite skip_ws_head by reflexivity. cbv beta iota.
    rewrite Ascii.eqb_refl, load_value_skip_ws by assumption.
    inversion HRT as [|? ? Hv HRT']; subst. cbn [snd] in Hv.
    cbn [forallb snd] in Hshape. apply andb_true_iff in Hshape as [Hsv Hshape'].
    rewrite Hv; [|assumption| |].
    + rewrite skip_ws_head by reflexivity. cbv beta iota.
      rewrite Ascii.eqb_refl.
      assert (Hfresh : existsb (String.eqb k) (map fst acc) = false).
      { rewrite map_app in Hkeys. now apply distinct_app_mid in Hkeys. }
      rewrite dict_set_fresh by assumption.
      rewrite IH; [now rewrite <- app_assoc | assumption | assumption | |].
      * now rewrite <- app_assoc.
      * apply (f_equal (@List.length ascii)) in Hbody. solve_len.
    + apply (f_equal (@List.length ascii)) in Hbody. solve_len.
    + reflexivity.
Qed.

Lemma skip_ws_items_text level closing c tl others rest :
  value_start c ->
  exists r', skip_ws (items level closing (c :: tl) others ++ rest) = c :: r'.
Proof.
  intros Hc. rewrite items_text_tail.
  rewrite skip_ws_app_ws by apply newline_indent_ws. cbn [app].
  rewrite skip_ws_head by apply (value_start_facts c Hc). eauto.
Qed.

Lemma dump_list_cons level x l :
  D level (PList (x :: l))
  = "["%char :: items level "]"%char (D (S level) x) (map (D (S level)) l).
Proof. reflexivity. Qed.

Lemma dump_dict_cons level kv d :
  D level (PDict (kv :: d))
  = "{"%char :: items level "}"%char (entry level kv) (map (entry level) d).
Proof. reflexivity. Qed.

Lemma entry_text_head level kv : exists tl, entry level kv = dquote :: tl.
Proof. unfold entry_text, dump_string. cbn [app]. eauto. Qed.

(** [load_value] inverts [dump] on every JSON-shaped value. *)
Theorem load_value_dump v : RT v.
Proof.
  induction v as [|b|n|s|l IH|l IH|d IH] using pyval_nested_ind;
    intros level fuel rest Hshape Hfuel Hrest;
    (destruct fuel as [|fuel]; [lia|]).
  - reflexivity.
  - destruct b; reflexivity.
  - cbn [dump] in *.
    destruct (dump_int_head n) as (c & tl & Hd & Hc).
    rewrite Hd. cbn [app]. rewrite load_value_number by assumption.
    change (c :: tl ++ rest) with ((c :: tl) ++ rest).
    rewrite <- Hd, load_int_dump by assumption. reflexivity.
  - cbn [dump] in *.
    destruct (load_string_dump s rest) as (body & -> & Hload).
    now rewrite load_value_string, Hload.
  - destruct l as [|x l]; [reflexivity|].
    cbn [json_shaped] in Hshape.
    rewrite dump_list_cons in *. cbn [app] in *.
    rewrite load_value_array.
    destruct (dump_head indent [","%char] (":"%char :: key_ws) (S level) x)
      as (c & tl & Hx & Hc).
    destruct (skip_ws_items_text level "]"%char c tl
                (map (D (S level)) l) rest Hc) as [r' Hskip].
    rewrite <- Hx in Hskip. rewrite Hskip.
    destruct (value_start_facts c Hc) as (_ & -> & _).
    rewrite (load_array_items level l x [] fuel rest IH Hshape); [reflexivity|].
    solve_len.
  - discriminate.
  - destruct d as [|kv d]; [reflexivity|].
    cbn [json_shaped] in Hshape.
    apply andb_true_iff in Hshape as [Hkeys Hshape].
    rewrite dump_dict_cons in *. cbn [app] in *.
    rewrite load_value_object.
    destruct (entry_text_head level kv) as [tl Hentry].
    destruct (skip_ws_items_text level "}"%char dquote tl
                (map (entry level) d) rest (or_intror eq_refl))
      as [r' Hskip].
    rewrite <- Hentry in Hskip. rewrite Hskip.
    change (Ascii.eqb dquote "}"%char) with false. cbv iota.
    rewrite (load_object_items level d kv [] fuel rest IH Hshape Hkeys);
      [reflexivity|].
    solve_len.
Qed.

End Settings.

Theorem loads_dumps_compact v :
  json_shaped v = true -> loads (dumps None (",", ":") v) = Some v.
Proof.
  intros Hs. unfold loads, dumps.
  rewrite list_ascii_of_string_of_list_ascii.
  pose proof (load_value_dump None [] eq_refl v 0) as H.
  cbn [fst snd list_ascii_of_string].
  set (text := dump None [","%char] [":"%char] 0 v) in *.
  rewrite <- (List.app_nil_r text) at 2.
  rewrite H; [reflexivity | assumption | | exact I].
  rewrite List.app_nil_r. lia.
Qed.

Theorem loads_dumps_pretty v :
  json_shaped v = true -> loads (dumps (Some 2) (",", ": ") v) = Some v.
Proof.
  intros Hs. unfold loads, dumps.
  rewrite list_ascii_of_string_of_list_ascii.
  pose proof (load_value_dump (Some 2) [" "%char] eq_refl v 0) as H.
  cbn [fst snd list_ascii_of_string].
  set (text := dump (Some 2) [","%char] [":"%char; " "%char] 0 v) in *.
  rewrite <- (List.app_nil_r text) at 2.
  rewrite H; [reflexivity | assumption | | exact I].
  rewrite List.app_nil_r. lia.
Qed.

Lemma dumps_nonempty indent separators v : dumps indent separators v <> "".
Proof.
  unfold dumps.
  destruct (dump_head indent (list_ascii_of_string (fst separators))
              (list_ascii_of_string (snd separators)) 0 v) as (c & tl & -> & _).
  discriminate.
Qed.

(** A tuple is dumped as the list of its items. *)
Lemma dump_as_lists indent item_sep key_sep v :
  forall level,
    dump indent item_sep key_sep level (as_lists v)
    = dump indent item_sep key_sep level v.
Proof.
  induction v as [|b|n|s|l IH|l IH|d IH] using pyval_nested_ind;
    intros level; cbn [as_lists dump]; try reflexivity.
  - f_equal. rewrite map_map. apply map_ext_Forall.
    eapply Forall_impl; [|exact IH]. auto.
  - f_equal. rewrite map_map. apply map_ext_Forall.
    eapply Forall_impl; [|exact IH]. auto.
  - f_equal. rewrite map_map. apply map_ext_Forall.
    eapply Forall_impl; [|exact IH]. cbv beta. intros kv Hkv.
    cbn [fst snd]. now rewrite Hkv.
Qed.

Lemma as_lists_json_shaped v :
  unique_keys v = true -> json_shaped (as_lists v) = true.
Proof.
  induction v as [|b|n|s|l IH|l IH|d IH] using pyval_nested_ind;
    cbn [as_lists unique_keys json_shaped]; try reflexivity.
  - intros H. rewrite forallb_forall in H. apply forallb_forall.
    intros y Hy. apply in_map_iff in Hy as (x & <- & Hx).
    rewrite Forall_forall in IH. auto.
  - intros H. rewrite forallb_forall in H. apply forallb_forall.
    intros y Hy. apply in_map_iff in Hy as (x & <- & Hx).
    rewrite Forall_forall in IH. auto.
  - intros H. apply andb_true_iff in H as [Hk H].
    assert (Hkeys : map fst (map (fun kv => (fst kv, as_lists (snd kv))) d)
                    = map fst d)
      by (rewrite map_map; apply map_ext; reflexivity).
    rewrite Hkeys, Hk. cbn [andb].
    rewrite forallb_forall in H. apply forallb_forall.
    intros y Hy. apply in_map_iff in Hy as (kv & <- & Hkv).
    rewrite Forall_forall in IH. cbn [snd]. auto.
Qed.

Lemma as_lists_fixes_json_shaped v : json_shaped v = true -> as_lists v = v.
Proof.
  induction v as [|b|n|s|l IH|l IH|d IH] using pyval_nested_ind;
    cbn [as_lists json_shaped]; try reflexivity; try discriminate.
  - intros H. rewrite forallb_forall in H. f_equal.
    rewrite <- (map_id l) at 2. apply map_ext_Forall.
    rewrite Forall_forall in *. auto.
  - intros H. apply andb_true_iff in H as [_ H].
    rewrite forallb_forall in H. f_equal.
    rewrite <- (map_id d) at 2. apply map_ext_Forall.
    rewrite Forall_forall in *. intros [k x] Hkv. cbn [fst snd].
    f_equal. apply (IH (k, x) Hkv). apply (H (k, x) Hkv).
Qed.

Lemma json_shaped_unique_keys v : json_shaped v = true -> unique_keys v = true.
Proof.
  induction v as [|b|n|s|l IH|l IH|d IH] using pyval_nested_ind;
    cbn [unique_keys json_shaped]; try reflexivity; try discriminate.
  - intros H. rewrite forallb_forall in *. rewrite Forall_forall in IH. auto.
  - intros H. apply andb_true_iff in H as [Hk H]. rewrite Hk. cbn [andb].
    rewrite forallb_forall in *. rewrite Forall_forall in IH. auto.
Qed.

Lemma dumps_as_lists indent separators v :
  dumps indent separators (as_lists v) = dumps indent separators v.
Proof. unfold dumps. now rewrite dump_as_lists. Qed.

(** What [json.loads] reads back from the text of [json_encode]: the value
    with its tuples as lists. *)
Lemma json_encode_decodes str x pretty :
  unique_keys x = true ->
  json_encode (L := json_library str) x pretty <> ""
  /\ json_loads (PyLib := json_library str)
       (json_encode (L := json_library str) x pretty)
     = Some (as_lists x).
Proof.
  intros Hx. unfold json_encode. cbn [json_dumps json_loads json_library].
  destruct pretty; cbn [negb]; (split; [apply dumps_nonempty|]);
    rewrite <- dumps_as_lists.
  - now apply loads_dumps_pretty, as_lists_json_shaped.
  - now apply loads_dumps_compact, as_lists_json_shaped.
Qed.

End JsonCodecFacts.

(** ** The variable decoder *)

Section DecoderClaims.
Import Json.
Context (str : pyval -> string).

(** C8, as the code has it: for every [x] whose mappings repeat no key,
    compact or pretty, [load_json_variables(json_encode(x, pretty))]
    returns [x] with every tuple read back as a list; it returns [x]
    itself when [x] holds no tuple (mappings, lists, strings, integers,
    booleans, [None]). *)
Theorem C8_variables_round_trip x pretty :
  unique_keys x = true ->
  load_json_variables (L := json_library str)
    (PStr (json_encode (L := json_library str) x pretty))
  = Ok (as_lists x)
  /\ (json_shaped x = true ->
      load_json_variables (L := json_library str)
        (PStr (json_encode (L := json_library str) x pretty))
      = Ok x).
Proof.
  intros Hx.
  destruct (json_encode_decodes str x pretty Hx) as [Hne Hrt].
  assert (H : load_json_variables (L := json_library str)
                (PStr (json_encode (L := json_library str) x pretty))
              = Ok (as_lists x)).
  { rewrite load_json_variables_unfold.
    destruct (json_encode (L := json_library str) x pretty) eqn:Hs;
      [contradiction|].
    now rewrite Hrt. }
  split; [exact H|].
  intros Hshape. now rewrite H, as_lists_fixes_json_shaped.
Qed.

(** The body decoder inverts [json_encode], compact or pretty, up to
    tuples, which come back as lists.  An empty body is refused with
    [HttpQueryError(400, "POST body sent invalid JSON.")], whereas the
    variable decoder hands an empty string back undecoded. *)
Theorem load_json_body_inverts_json_encode x pretty :
  unique_keys x = true ->
  load_json_body (L := json_library str)
    (json_encode (L := json_library str) x pretty)
  = Ok (as_lists x)
  /\ (json_shaped x = true ->
      load_json_body (L := json_library str)
        (json_encode (L := json_library str) x pretty)
      = Ok x)
  /\ load_json_body (L := json_library str) ""
     = Raise (HttpQueryError 400 "POST body sent invalid JSON." None)
  /\ load_json_variables (L := json_library str) (PStr "") = Ok (PStr "").
Proof.
  intros Hx.
  destruct (json_encode_decodes str x pretty Hx) as [_ Hrt].
  assert (H : load_json_body (L := json_library str)
                (json_encode (L := json_library str) x pretty)
              = Ok (as_lists x)).
  { unfold load_json_body. now rewrite Hrt. }
  split; [exact H|]. split; [|split; reflexivity].
  intros Hshape. now rewrite H, as_lists_fixes_json_shaped.
Qed.

(** Variables may be sent as JSON text or as structure: an item whose
    variables are the text [json_encode(x)] of a non-empty mapping or list
    [x] without tuples yields the same parameters as the item that carries
    [x] itself, with [x] as their variables. *)
Theorem variables_as_text_or_structure d d' fallback x pretty :
  json_shaped x = true ->
  truthy x = true ->
  is_str x = false ->
  dict_get d "variables" = PStr (json_encode (L := json_library str) x pretty) ->
  dict_get d' "variables" = x ->
  dict_get d "query" = dict_get d' "query" ->
  dict_get d "operationName" = dict_get d' "operationName" ->
  get_graphql_params (L := json_library str) (PDict d) fallback
  = get_graphql_params (L := json_library str) (PDict d') fallback
  /\ exists params,
       get_graphql_params (L := json_library str) (PDict d') fallback = Ok params
       /\ variables params = x.
Proof.
  intros Hshape Htruthy Hstr Hd Hd' Hq Ho.
  destruct (json_encode_decodes str x pretty (json_shaped_unique_keys x Hshape))
    as [Hne Hrt].
  rewrite as_lists_fixes_json_shaped in Hrt by assumption.
  assert (Htext : load_json_variables (L := json_library str)
                    (PStr (json_encode (L := json_library str) x pretty))
                  = Ok x).
  { rewrite load_json_variables_unfold.
    destruct (json_encode (L := json_library str) x pretty) eqn:Hs;
      [contradiction|].
    now rewrite Hrt. }
  assert (Hstruct : load_json_variables (L := json_library str) x = Ok x).
  { unfold load_json_variables. now rewrite Hstr, andb_false_r. }
  assert (Htt : truthy (PStr (json_encode (L := json_library str) x pretty))
                = true).
  { cbn [truthy].
    destruct (String.eqb_spec (json_encode (L := json_library str) x pretty) "");
      [contradiction | reflexivity]. }
  unfold get_graphql_params. cbn [py_get rbind].
  rewrite Hd, Hd', Hq, Ho. unfold py_or. rewrite Htt, Htruthy.
  rewrite Htext, Hstruct. cbn [rbind]. split; [reflexivity|].
  eexists. split; reflexivity.
Qed.

End DecoderClaims.

Section DecoderWitnesses.
Import Demo.

Lemma C8_witness :
  Json.unique_keys
    (PDict [("id", PInt 7); ("tags", PList [PStr "a"; PNone])]) = true
  /\ load_json_variables
       (PStr (json_encode
                (PDict [("id", PInt 7); ("tags", PList [PStr "a"; PNone])]) false))
     = Ok (PDict [("id", PInt 7); ("tags", PList [PStr "a"; PNone])])
  /\ load_json_variables
       (PStr (json_encode
                (PDict [("id", PInt 7); ("tags", PList [PStr "a"; PNone])]) true))
     = Ok (PDict [("id", PInt 7); ("tags", PList [PStr "a"; PNone])]).
Proof.
  split; [reflexivity|].
  split.
  - exact (proj2 (C8_variables_round_trip demo_str
                    (PDict [("id", PInt 7); ("tags", PList [PStr "a"; PNone])])
                    false eq_refl) eq_refl).
  - exact (proj2 (C8_variables_round_trip demo_str
                    (PDict [("id", PInt 7); ("tags", PList [PStr "a"; PNone])])
                    true eq_refl) eq_refl).
Defined.

(** C8 as stated fails: a mapping that holds a tuple is serialized with a
    JSON array in its place, and decoding yields a list there, a value
    different from the tuple. *)
Lemma C8_counterexample :
  json_encode (PDict [("point", PTuple [PInt 1; PInt 2])]) false
  = ("{" ++ String Json.dquote ("point" ++ String Json.dquote ":[1,2]}"))%string
  /\ load_json_variables
       (PStr (json_encode (PDict [("point", PTuple [PInt 1; PInt 2])]) false))
     = Ok (PDict [("point", PList [PInt 1; PInt 2])])
  /\ load_json_variables
       (PStr (json_encode (PDict [("point", PTuple [PInt 1; PInt 2])]) false))
     <> Ok (PDict [("point", PTuple [PInt 1; PInt 2])]).
Proof.
  split; [reflexivity|]. split; [reflexivity|]. discriminate.
Qed.

Lemma load_json_body_witness :
  Json.unique_keys
    (PDict [("query", PStr "{ __typename }"); ("at", PTuple [PInt 1; PInt 2])])
  = true
  /\ load_json_body
       (json_encode
          (PDict [("query", PStr "{ __typename }");
                  ("at", PTuple [PInt 1; PInt 2])]) true)
     = Ok (PDict [("query", PStr "{ __typename }");
                  ("at", PList [PInt 1; PInt 2])]).
Proof.
  split; [reflexivity|].
  exact (proj1 (load_json_body_inverts_json_encode demo_str
                  (PDict [("query", PStr "{ __typename }");
                          ("at", PTuple [PInt 1; PInt 2])])
                  true eq_refl)).
Defined.

Lemma variables_as_text_witness :
  Json.json_shaped (PDict [("id", PInt 7)]) = true
  /\ get_graphql_params
       (PDict [("query", PStr "{ __typename }");
               ("variables", PStr (json_encode (PDict [("id", PInt 7)]) false))])
       []
     = get_graphql_params
         (PDict [("query", PStr "{ __typename }");
                 ("variables", PDict [("id", PInt 7)])])
         []
  /\ get_graphql_params
       (PDict [("query", PStr "{ __typename }");
               ("variables", PDict [("id", PInt 7)])])
       []
     = Ok (mkGraphQLParams (PStr "{ __typename }") (PDict [("id", PInt 7)]) PNone).
Proof.
  split; [reflexivity|].
  split; [|reflexivity].
  exact (proj1 (variables_as_text_or_structure demo_str
                  [("query", PStr "{ __typename }");
                   ("variables",
                    PStr (json_encode (PDict [("id", PInt 7)]) false))]
                  [("query", PStr "{ __typename }");
                   ("variables", PDict [("id", PInt 7)])]
                  [] (PDict [("id", PInt 7)]) false
                  eq_refl eq_refl eq_refl eq_refl eq_refl eq_refl eq_refl)).
Defined.

End DecoderWitnesses.

(** ** Further properties of the orchestrator and the decoder *)

Section MoreProperties.
Context {E : GraphQLEngine} {L : PyLib}.

(** A list payload with batching disabled is refused whatever it holds. *)
Theorem batch_disabled_is_refused schema request_method items query_data catch :
  method_supported request_method = true ->
  run_http_query schema request_method (PList items) query_data false catch
  = ([], Raise (HttpQueryError 400 "Batch GraphQL requests are not enabled." None)).
Proof.
  intros Hm. unfold run_http_query. now rewrite Hm.
Qed.

(** An empty list payload is refused. *)
Theorem empty_batch_is_refused schema request_method query_data catch :
  method_supported request_method = true ->
  run_http_query schema request_method (PList []) query_data true catch
  = ([], Raise (HttpQueryError 400
                  "Received an empty list in the batch request." None)).
Proof.
  intros Hm. unfold run_http_query. now rewrite Hm.
Qed.

(** A payload that is neither a list nor a mapping is refused. *)
Theorem non_mapping_payload_is_refused
    schema request_method payload query_data batch_enabled catch :
  method_supported request_method = true ->
  is_list payload = false ->
  is_dict payload = false ->
  run_http_query schema request_method payload query_data batch_enabled catch
  = ([], Raise (HttpQueryError 400
                  ("GraphQL params should be a dict. Received "
                     ++ py_str payload ++ ".") None)).
Proof.
  intros Hm Hl Hd. unfold run_http_query. now rewrite Hm, Hl, Hd.
Qed.

(** A single mapping is run as one item, with the query data as fallback;
    whenever [run_http_query] returns on it, it returns one outcome and one
    parameter tuple, and the non-batch encoding of that outcome is never a
    sequence. *)
Theorem single_request_has_one_outcome
    schema request_method d query_data batch_enabled catch responses all_params :
  outcome (run_http_query schema request_method (PDict d) query_data
             batch_enabled catch) = Ok (responses, all_params) ->
  exists params,
    get_graphql_params (PDict d)
      (match query_data with Some (b :: qd) => b :: qd | _ => [] end)
    = Ok params
    /\ all_params = [params]
    /\ responses = [item_outcome schema params (request_method =? "get")]
    /\ forall (R : Type) fe (encode : pyval -> R) body code,
         encode_execution_results responses fe false encode
         = Ok (body, code) ->
         code = 200%Z
         /\ exists encoded, body = encode encoded /\ is_sequence encoded = false.
Proof.
  unfold run_http_query.
  destruct (method_supported request_method); cbn [negb]; [|discriminate].
  cbn [is_list is_dict negb]. rewrite bind_ret_l.
  cbn [mapM]. unfold lift at 1.
  destruct (get_graphql_params (PDict d) _) as [params|e] eqn:Hp;
    [|discriminate].
  intros H. exists params. split; [reflexivity|].
  change (@nil engine_call, @Ok GraphQLParams params) with (ret params) in H.
  rewrite bind_ret_l in H. change (bind (ret []) ?f) with (bind (ret (@nil GraphQLParams)) f) in H.
  rewrite bind_ret_l, bind_ret_l in H. cbn [mapM] in H.
  unfold bind, ret, outcome in H. cbn [fst snd] in H.
  destruct (get_response schema params _ _) as [t [r|e]] eqn:Hr;
    cbn [fst snd] in H; [|discriminate].
  injection H as <- <-.
  assert (Hslot : r = item_outcome schema params (request_method =? "get")).
  { eapply (get_response_ok schema params (catch_class catch)).
    unfold outcome, catch_class. now rewrite Hr. }
  subst r. split; [reflexivity|]. split; [reflexivity|].
  intros R fe encode body code Henc.
  now apply encode_execution_results_ok_shape in Henc.
Qed.

(** The variable decoder leaves falsy values and non-strings alone, decodes
    a non-empty string with [json.loads], and turns a decoding failure into
    [HttpQueryError(400, "Variables are invalid JSON.")]. *)
Theorem load_json_variables_cases v :
  load_json_variables v
  = match v with
    | PStr "" => Ok v
    | PStr s =>
        match json_loads s with
        | Some decoded => Ok decoded
        | None => Raise (HttpQueryError 400 "Variables are invalid JSON." None)
        end
    | _ => Ok v
    end.
Proof. apply load_json_variables_unfold. Qed.

Lemma get_graphql_params_raises entry fallback e :
  get_graphql_params entry fallback = Raise e ->
  e = AttributeError "get"
  \/ e = HttpQueryError 400 "Variables are invalid JSON." None.
Proof.
  unfold get_graphql_params.
  destruct entry; cbn [py_get rbind]; try (intros [= <-]; now left).
  rewrite load_json_variables_unfold.
  destruct (py_or _ _) as [|b|n|s|l|l|d']; cbn [rbind]; try discriminate.
  destruct s; cbn [rbind]; [discriminate|].
  destruct (json_loads _); cbn [rbind]; [discriminate|].
  intros [= <-]. now right.
Qed.

Lemma get_response_raises schema params cls allow_only_query e :
  outcome (get_response schema params cls allow_only_query) = Raise e ->
  outcome (execute_graphql_request schema params allow_only_query) = Raise e.
Proof.
  destruct cls.
  - rewrite get_response_contained. discriminate.
  - rewrite get_response_propagating.
    destruct (outcome (execute_graphql_request schema params allow_only_query));
      [discriminate | now intros [= <-]].
Qed.

Lemma mapM_raise_inv {A B} (f : A -> M B) l e :
  outcome (mapM f l) = Raise e -> exists x, In x l /\ outcome (f x) = Raise e.
Proof.
  induction l as [|x l IH]; [discriminate|].
  rewrite mapM_cons.
  destruct (outcome (f x)) as [y|e'] eqn:Hx.
  - destruct (outcome (mapM f l)) as [ys|e'] eqn:Hl; [discriminate|].
    cbn. intros [= <-]. destruct (IH eq_refl) as (z & Hin & Hz).
    exists z. split; [now right | assumption].
  - cbn. intros [= <-]. exists x. split; [now left | assumption].
Qed.

End MoreProperties.

Section MoreWitnesses.
Import Demo.

Lemma batch_disabled_witness :
  method_supported "post" = true
  /\ run_http_query tt "post" (PList demo_batch) None false true
     = ([], Raise (HttpQueryError 400
                     "Batch GraphQL requests are not enabled." None)).
Proof.
  split; [reflexivity|].
  apply (batch_disabled_is_refused (E := engine) (L := pylib)). reflexivity.
Defined.

Lemma empty_batch_witness :
  method_supported "get" = true
  /\ run_http_query tt "get" (PList []) None true false
     = ([], Raise (HttpQueryError 400
                     "Received an empty list in the batch request." None)).
Proof.
  split; [reflexivity|].
  apply (empty_batch_is_refused (E := engine) (L := pylib)). reflexivity.
Defined.

Lemma non_mapping_payload_witness :
  method_supported "post" = true
  /\ run_http_query tt "post" (PStr "{ __typename }") None true true
     = ([], Raise (HttpQueryError 400
                     "GraphQL params should be a dict. Received { __typename }."
                     None)).
Proof.
  split; [reflexivity|].
  apply (non_mapping_payload_is_refused (E := engine) (L := pylib)); reflexivity.
Defined.

Lemma single_request_witness :
  outcome (run_http_query tt "get" (PDict [])
             (Some [("query", PStr "{ __typename }")]) false false)
  = Ok ([Some (mkExecutionResult (PDict [("__typename", PStr "Query")]) None)],
        [mkGraphQLParams (PStr "{ __typename }") PNone PNone])
  /\ exists params,
       get_graphql_params (PDict []) [("query", PStr "{ __typename }")] = Ok params
       /\ [mkGraphQLParams (PStr "{ __typename }") PNone PNone] = [params].
Proof.
  split; [reflexivity|].
  destruct (single_request_has_one_outcome (E := engine) (L := pylib)
              tt "get" [] (Some [("query", PStr "{ __typename }")]) false false
              _ _ eq_refl) as (params & Hp & Hall & _).
  exists params. split; assumption.
Defined.

End MoreWitnesses.

(** ** How the functions compose, and what they never do *)

Section CoverageProperties.
Context {E : GraphQLEngine} {L : PyLib}.

(** [run_http_query] on a single mapping. *)
Lemma run_http_query_single schema request_method d query_data batch_enabled catch :
  method_supported request_method = true ->
  run_http_query schema request_method (PDict d) query_data batch_enabled catch
  = run_items schema [PDict d]
      (match query_data with Some (b :: r) => b :: r | _ => [] end)
      (catch_class catch) (request_method =? "get").
Proof.
  intros Hm. unfold run_http_query, run_items. rewrite Hm.
  cbn [negb is_list is_dict]. now rewrite bind_ret_l.
Qed.

(** [run_http_query] on a non-empty list, batching enabled. *)
Lemma run_http_query_list schema request_method i l query_data catch :
  method_supported request_method = true ->
  run_http_query schema request_method (PList (i :: l)) query_data true catch
  = run_items schema (i :: l) [] (catch_class catch) (request_method =? "get").
Proof.
  intros Hm. unfold run_http_query, run_items. rewrite Hm.
  cbn [negb is_list is_dict]. now rewrite bind_ret_l.
Qed.

(** A payload that is neither a list nor a mapping. *)
Lemma non_mapping_payload_is_refused_aux
    schema request_method payload query_data batch_enabled catch :
  method_supported request_method = true ->
  is_list payload = false ->
  is_dict payload = false ->
  run_http_query schema request_method payload query_data batch_enabled catch
  = ([], Raise (HttpQueryError 400
                  ("GraphQL params should be a dict. Received "
                     ++ py_str payload ++ ".") None)).
Proof.
  intros Hm Hl Hd. unfold run_http_query. now rewrite Hm, Hl, Hd.
Qed.

(** Every way [run_http_query] can go once the method is supported. *)
Lemma run_http_query_shapes
    schema request_method payload query_data batch_enabled catch :
  method_supported request_method = true ->
  (exists message,
     run_http_query schema request_method payload query_data batch_enabled catch
     = ([], Raise (HttpQueryError 400 message None))
     /\ message <> "Must provide query string.")
  \/ exists items extra,
       items <> []
       /\ run_http_query schema request_method payload query_data
            batch_enabled catch
          = run_items schema items extra (catch_class catch)
              (request_method =? "get").
Proof.
  intros Hm.
  destruct payload as [|b|n|s|l|l|d];
    try (left; eexists; split;
         [apply non_mapping_payload_is_refused_aux; [assumption|reflexivity..]
         | cbn; discriminate]).
  - destruct batch_enabled.
    + destruct l as [|i l].
      * left. exists "Received an empty list in the batch request.".
        split; [|discriminate].
        unfold run_http_query. rewrite Hm. reflexivity.
      * right. exists (i :: l), []. split; [discriminate|].
        now apply run_http_query_list.
    + left. exists "Batch GraphQL requests are not enabled.".
      split; [|discriminate].
      unfold run_http_query. rewrite Hm. reflexivity.
  - right. eexists [PDict d], _. split; [discriminate|].
    now apply run_http_query_single.
Qed.

(** Every way [execute_graphql_request] can go. *)
Lemma execute_graphql_request_shapes schema params allow_only_query :
  (truthy (query params) = false
   /\ execute_graphql_request schema params allow_only_query
      = ([], Raise (HttpQueryError 400 "Must provide query string." None)))
  \/ (exists e,
        parse_error (parse (query params)) = Some e
        /\ execute_graphql_request schema params allow_only_query
           = ([CallParse (query params)],
              Ok (mkExecutionResult PNone (Some [e]))))
  \/ (exists document operation_ast,
        parse (query params) = Parsed document
        /\ allow_only_query = true
        /\ get_operation_ast document (operation_name params) = Some operation_ast
        /\ operation operation_ast <> QUERY
        /\ execute_graphql_request schema params allow_only_query
           = ([CallParse (query params);
               CallGetOperationAst document (operation_name params)],
              Raise (HttpQueryError 405
                       ("Can only perform a " ++ value (operation operation_ast)
                          ++ " operation from a POST request.")
                       (Some [("Allow", "POST")]))))
  \/ (exists document,
        parse (query params) = Parsed document
        /\ (allow_only_query = true ->
            forall operation_ast,
              get_operation_ast document (operation_name params)
              = Some operation_ast ->
              operation operation_ast = QUERY)
        /\ execute_graphql_request schema params allow_only_query
           = (CallParse (query params)
                :: (if allow_only_query
                    then [CallGetOperationAst document (operation_name params)]
                    else [])
                ++ validated_calls schema document params,
              Ok (validated_result schema document params))).
Proof.
  destruct (truthy (query params)) eqn:Hq.
  2:{ left. split; [reflexivity|]. now apply execute_no_query. }
  right.
  destruct (parse (query params)) as [document|e'|s] eqn:Hp.
  - right. destruct allow_only_query.
    + destruct (get_operation_ast document (operation_name params))
        as [op|] eqn:Hop.
      * destruct (operation op) eqn:Hk.
        -- right. exists document. split; [reflexivity|]. split.
           ++ intros _ op' Hop'. assert (op' = op) by congruence.
              subst op'. assumption.
           ++ apply execute_restricted_pass; try assumption. now rewrite Hop.
        -- left. exists document, op. repeat (split; [congruence|]).
           apply execute_restricted_reject; congruence.
        -- left. exists document, op. repeat (split; [congruence|]).
           apply execute_restricted_reject; congruence.
      * right. exists document. split; [reflexivity|]. split.
        -- intros _ op' Hop'. congruence.
        -- apply execute_restricted_pass; try assumption. now rewrite Hop.
    + right. exists document. split; [reflexivity|]. split; [discriminate|].
      now apply execute_unrestricted.
  - left. exists e'. split; [reflexivity|].
    apply execute_parse_failure; [assumption | now rewrite Hp].
  - left. exists (GraphQLError_of_exception s). split; [reflexivity|].
    apply execute_parse_failure; [assumption | now rewrite Hp].
Qed.

(** [execute] is only ever called on the schema and parameters at hand, on
    a document that parsed and that [validate] found no error in, and,
    under the read-only verb, never for an operation resolved as a mutation
    or a subscription; what it returns is then the result of the request. *)
Theorem execute_is_called_only_on_valid_permitted_documents
    schema params allow_only_query s document v o :
  In (CallExecute s document v o)
     (trace (execute_graphql_request schema params allow_only_query)) ->
  s = schema /\ v = variables params /\ o = operation_name params
  /\ parse (query params) = Parsed document
  /\ validate schema document = []
  /\ (allow_only_query = true ->
      forall operation_ast,
        get_operation_ast document (operation_name params) = Some operation_ast ->
        operation operation_ast = QUERY)
  /\ outcome (execute_graphql_request schema params allow_only_query)
     = Ok (execute schema document v o).
Proof.
  destruct (execute_graphql_request_shapes schema params allow_only_query)
    as [[_ ->] | [(e & _ & ->) | [(d & op & _ & _ & _ & _ & ->)
                                 | (d & Hp & Hop & ->)]]];
    unfold trace, outcome; cbn [fst snd In].
  - contradiction.
  - intros [[=] | []].
  - intros [[=] | [[=] | []]].
  - unfold validated_calls, validated_result.
    intros [[=] | Hin].
    assert (Hv : In (CallExecute s document v o)
                    (CallValidate schema d
                       :: match validate schema d with
                          | [] => [CallExecute schema d (variables params)
                                     (operation_name params)]
                          | _ :: _ => []
                          end)).
    { destruct allow_only_query; cbn [app In] in Hin; [|exact Hin].
      destruct Hin as [[=] | Hin]. exact Hin. }
    destruct Hv as [[=] | Hv].
    destruct (validate schema d) eqn:Hval; [|contradiction].
    destruct Hv as [[= <- <- <- <-] | []].
    rewrite Hval. repeat (split; [auto|]). reflexivity.
Qed.

(** The read-only restriction changes nothing unless the operation it
    resolves is a mutation or a subscription: GET and POST then end alike. *)
Theorem restriction_is_transparent_to_queries schema params :
  (forall document operation_ast,
     parse (query params) = Parsed document ->
     get_operation_ast document (operation_name params) = Some operation_ast ->
     operation operation_ast = QUERY) ->
  outcome (execute_graphql_request schema params true)
  = outcome (execute_graphql_request schema params false).
Proof.
  intros Hquery.
  destruct (truthy (query params)) eqn:Hq.
  2:{ now rewrite !execute_no_query. }
  destruct (parse (query params)) as [d|e|s] eqn:Hp.
  - rewrite (execute_unrestricted schema params d Hq Hp).
    rewrite (execute_restricted_pass schema params d Hq Hp); [reflexivity|].
    destruct (get_operation_ast d (operation_name params)) eqn:Hg;
      [eapply Hquery; eauto | exact I].
  - rewrite !(execute_parse_failure schema params _ e)
      by (assumption || now rewrite Hp).
    reflexivity.
  - rewrite !(execute_parse_failure schema params _ (GraphQLError_of_exception s))
      by (assumption || now rewrite Hp).
    reflexivity.
Qed.

(** A document that parses but does not validate is answered in band: the
    validation errors are the result, [execute] is not called, and the
    default formatting gives [{"errors": [...]}] with status 200. *)
Theorem validation_errors_are_in_band
    schema params document e errs allow_only_query :
  truthy (query params) = true ->
  parse (query params) = Parsed document ->
  validate schema document = e :: errs ->
  (allow_only_query = true ->
   forall operation_ast,
     get_operation_ast document (operation_name params) = Some operation_ast ->
     operation operation_ast = QUERY) ->
  outcome (execute_graphql_request schema params allow_only_query)
  = Ok (mkExecutionResult PNone (Some (e :: errs)))
  /\ (forall s d v o,
        ~ In (CallExecute s d v o)
             (trace (execute_graphql_request schema params allow_only_query)))
  /\ format_execution_result
       (Some (mkExecutionResult PNone (Some (e :: errs)))) None
     = Ok (mkGraphQLResponse
             (PDict [("errors", PList (map format_error_default (e :: errs)))])
             200).
Proof.
  intros Hq Hp Hval Hop.
  assert (Hx : execute_graphql_request schema params allow_only_query
               = (CallParse (query params)
                    :: (if allow_only_query
                        then [CallGetOperationAst document (operation_name params)]
                        else [])
                    ++ validated_calls schema document params,
                  Ok (validated_result schema document params))).
  { destruct allow_only_query.
    - apply execute_restricted_pass; try assumption.
      destruct (get_operation_ast document (operation_name params)) eqn:Hg;
        [now apply Hop | exact I].
    - now apply execute_unrestricted. }
  rewrite Hx. unfold outcome, trace, validated_result, validated_calls.
  rewrite Hval. cbn [fst snd]. split; [reflexivity|]. split; [|reflexivity].
  intros s d v o Hin.
  destruct allow_only_query; cbn [app In] in Hin;
    repeat (destruct Hin as [Hin | Hin]; [discriminate|]); exact Hin.
Qed.

Lemma run_items_extraction_raises schema items extra cls allow_only_query e :
  rmap (fun entry => get_graphql_params entry extra) items = Raise e ->
  run_items schema items extra cls allow_only_query = ([], Raise e).
Proof.
  intros He. unfold run_items. now rewrite mapM_lift, He.
Qed.

Lemma run_items_extracted schema items extra cls allow_only_query all_params :
  rmap (fun entry => get_graphql_params entry extra) items = Ok all_params ->
  run_items schema items extra cls allow_only_query
  = (responses <- mapM (fun params =>
                          get_response schema params cls allow_only_query)
                       all_params ;;
     ret (responses, all_params)).
Proof.
  intros Hps. unfold run_items. now rewrite mapM_lift, Hps, bind_lift_ok.
Qed.

Lemma run_items_ok_inv schema items extra cls allow_only_query responses all_params :
  outcome (run_items schema items extra cls allow_only_query)
  = Ok (responses, all_params) ->
  rmap (fun entry => get_graphql_params entry extra) items = Ok all_params
  /\ Forall2 (fun params r =>
                outcome (get_response schema params cls allow_only_query) = Ok r)
             all_params responses.
Proof.
  destruct (rmap (fun entry => get_graphql_params entry extra) items)
    as [ps|e] eqn:Hps.
  - rewrite (run_items_extracted _ _ _ _ _ ps Hps).
    unfold bind, ret, outcome.
    destruct (mapM _ ps) as [t [rs|e]] eqn:Hrun; cbn [fst snd]; [|discriminate].
    intros [= <- <-]. split; [reflexivity|].
    apply mapM_ok_inv. unfold outcome. now rewrite Hrun.
  - rewrite (run_items_extraction_raises _ _ _ _ _ e Hps). discriminate.
Qed.

(** With containment, the run of extracted items returns, and makes the
    engine calls of every item in order. *)
Lemma run_items_contained schema items extra allow_only_query all_params :
  rmap (fun entry => get_graphql_params entry extra) items = Ok all_params ->
  run_items schema items extra ClsHttpQueryError allow_only_query
  = (flat_map (fun params =>
                 trace (execute_graphql_request schema params allow_only_query))
              all_params,
     Ok (map (fun params => item_outcome schema params allow_only_query)
             all_params,
         all_params)).
Proof.
  intros Hps. rewrite (run_items_extracted _ _ _ _ _ all_params Hps).
  rewrite (mapM_all_ok _ (fun params =>
             item_outcome schema params allow_only_query))
    by (intros; apply get_response_contained).
  unfold bind, ret. cbn [fst snd]. rewrite ?List.app_nil_r.
  f_equal. apply flat_map_ext. intros p. apply get_response_trace.
Qed.

Lemma unsupported_method_raises
    schema request_method payload query_data batch_enabled catch :
  method_supported request_method = false ->
  run_http_query schema request_method payload query_data batch_enabled catch
  = ([], Raise (HttpQueryError 405
                  "GraphQL only supports GET and POST requests."
                  (Some [("Allow", "GET, POST")]))).
Proof. intros Hm. unfold run_http_query. now rewrite Hm. Qed.

(** Without containment no slot is ever [None]: whenever [run_http_query]
    returns with [catch] false, on a single mapping or on a list, every
    outcome is the result of executing the parameters at the same position. *)
Theorem propagating_run_returns_executed_results
    schema request_method payload query_data batch_enabled responses all_params :
  outcome (run_http_query schema request_method payload query_data
             batch_enabled false) = Ok (responses, all_params) ->
  Forall2 (fun params r =>
             exists er,
               r = Some er
               /\ outcome (execute_graphql_request schema params
                             (request_method =? "get")) = Ok er)
          all_params responses.
Proof.
  destruct (method_supported request_method) eqn:Hm.
  2:{ rewrite unsupported_method_raises by assumption. discriminate. }
  destruct (run_http_query_shapes schema request_method payload query_data
              batch_enabled false Hm)
    as [(message & -> & _) | (items & extra & _ & ->)]; [discriminate|].
  intros H. apply run_items_ok_inv in H as [_ HF].
  eapply Forall2_impl; [|exact HF]. cbv beta. intros p r.
  cbn [catch_class]. rewrite get_response_propagating.
  destruct (outcome (execute_graphql_request schema p (request_method =? "get")))
    as [er|e]; [|discriminate].
  intros [= <-]. eauto.
Qed.

(** An [HttpQueryError] of an item's execution is one of the two the
    executor raises. *)
Lemma execute_http_error schema params allow_only_query status_code message headers :
  outcome (execute_graphql_request schema params allow_only_query)
  = Raise (HttpQueryError status_code message headers) ->
  (status_code = 400%Z /\ message = "Must provide query string."
   /\ headers = None)
  \/ (allow_only_query = true /\ status_code = 405%Z
      /\ headers = Some [("Allow", "POST")]
      /\ exists op,
           op <> QUERY
           /\ message = ("Can only perform a " ++ value op
                          ++ " operation from a POST request.")%string).
Proof.
  destruct (execute_graphql_request_shapes schema params allow_only_query)
    as [(_ & ->) | [(e & _ & ->) | [(document & op & _ & Ha & _ & Hop & ->)
                                   | (document & _ & _ & ->)]]];
    unfold outcome; cbn [snd]; try discriminate.
  - intros [= <- <- <-]. now left.
  - intros [= <- <- <-]. right. repeat (split; [assumption || reflexivity|]).
    exists (operation op). split; [assumption | reflexivity].
Qed.

(** An [HttpQueryError] that leaves the two comprehensions comes from the
    extraction of an item's variables, before any engine call, or, when
    nothing is caught, from the execution of an item. *)
Lemma run_items_http_error
    schema items extra cls allow_only_query status_code message headers :
  outcome (run_items schema items extra cls allow_only_query)
  = Raise (HttpQueryError status_code message headers) ->
  (trace (run_items schema items extra cls allow_only_query) = []
   /\ status_code = 400%Z /\ message = "Variables are invalid JSON."
   /\ headers = None)
  \/ (cls = ClsSkipException
      /\ exists params,
           outcome (execute_graphql_request schema params allow_only_query)
           = Raise (HttpQueryError status_code message headers)).
Proof.
  destruct (rmap (fun entry => get_graphql_params entry extra) items)
    as [ps|e'] eqn:Hps.
  - destruct cls.
    + rewrite (run_items_contained _ _ _ _ ps Hps). discriminate.
    + rewrite (run_items_extracted _ _ _ _ _ ps Hps).
      unfold bind, ret, outcome.
      destruct (mapM _ ps) as [t [rs|e']] eqn:Hrs; cbn [fst snd]; [discriminate|].
      intros [= ->]. right. split; [reflexivity|].
      destruct (mapM_raise_inv
                  (fun params =>
                     get_response schema params ClsSkipException allow_only_query)
                  ps (HttpQueryError status_code message headers))
        as (params & _ & Hp).
      { unfold outcome. now rewrite Hrs. }
      exists params. now apply get_response_raises in Hp.
  - rewrite (run_items_extraction_raises _ _ _ _ _ e' Hps).
    cbn. intros [= ->]. left. split; [reflexivity|].
    apply rmap_raise_inv in Hps as (entry & _ & Hentry).
    apply get_graphql_params_raises in Hentry as [Hentry | Hentry];
      [discriminate|].
    injection Hentry as -> -> ->. auto.
Qed.

(** Where an [HttpQueryError] that leaves [run_http_query] comes from. *)
Lemma run_http_query_http_error
    schema request_method payload query_data batch_enabled catch
    status_code message headers :
  outcome (run_http_query schema request_method payload query_data
             batch_enabled catch)
  = Raise (HttpQueryError status_code message headers) ->
  (method_supported request_method = false
   /\ trace (run_http_query schema request_method payload query_data
               batch_enabled catch) = []
   /\ status_code = 405%Z
   /\ message = "GraphQL only supports GET and POST requests."
   /\ headers = Some [("Allow", "GET, POST")])
  \/ (method_supported request_method = true
      /\ trace (run_http_query schema request_method payload query_data
                  batch_enabled catch) = []
      /\ status_code = 400%Z /\ headers = None
      /\ ((is_list payload = false /\ is_dict payload = false
           /\ message = ("GraphQL params should be a dict. Received "
                          ++ py_str payload ++ ".")%string)
          \/ (is_list payload = true /\ batch_enabled = false
              /\ message = "Batch GraphQL requests are not enabled.")
          \/ (payload = PList [] /\ batch_enabled = true
              /\ message = "Received an empty list in the batch request.")
          \/ message = "Variables are invalid JSON."))
  \/ (method_supported request_method = true /\ catch = false
      /\ status_code = 400%Z /\ headers = None
      /\ message = "Must provide query string.")
  \/ (method_supported request_method = true /\ catch = false
      /\ request_method = "get"
      /\ status_code = 405%Z /\ headers = Some [("Allow", "POST")]
      /\ exists op,
           op <> QUERY
           /\ message = ("Can only perform a " ++ value op
                          ++ " operation from a POST request.")%string).
Proof.
  destruct (method_supported request_method) eqn:Hm.
  2:{ rewrite unsupported_method_raises by assumption.
      cbn. intros [= <- <- <-]. left. auto. }
  intros H. right.
  assert (Hitems : forall items extra,
            run_http_query schema request_method payload query_data
              batch_enabled catch
            = run_items schema items extra (catch_class catch)
                (request_method =? "get") ->
            (trace (run_http_query schema request_method payload query_data
                      batch_enabled catch) = []
             /\ status_code = 400%Z /\ headers = None
             /\ message = "Variables are invalid JSON.")
            \/ (catch = false /\ status_code = 400%Z /\ headers = None
                /\ message = "Must provide query string.")
            \/ (catch = false /\ request_method = "get"
                /\ status_code = 405%Z /\ headers = Some [("Allow", "POST")]
                /\ exists op,
                     op <> QUERY
                     /\ message = ("Can only perform a " ++ value op
                                    ++ " operation from a POST request.")%string)).
  { intros items extra Hrun. rewrite Hrun in H |- *.
    apply run_items_http_error in H
      as [(Ht & -> & -> & ->) | (Hcls & params & Hp)]; [left; auto|].
    assert (Hcatch : catch = false) by (destruct catch; [discriminate | reflexivity]).
    right.
    apply execute_http_error in Hp
      as [(-> & -> & ->) | (Hget & -> & -> & Hop)]; [left; auto|].
    right. apply String.eqb_eq in Hget. auto 6. }
  destruct payload as [|b|n|s|l|l|d].
  1-4,6:
    rewrite non_mapping_payload_is_refused_aux in H |- *
      by (assumption || reflexivity);
    cbn in H; injection H as <- <- <-;
    left; repeat (split; [reflexivity|]); left; auto.
  - destruct batch_enabled.
    + destruct l as [|i l].
      * assert (Hrun : run_http_query schema request_method (PList []) query_data
                         true catch
                       = ([], Raise (HttpQueryError 400
                                       "Received an empty list in the batch request."
                                       None))).
        { unfold run_http_query. rewrite Hm. reflexivity. }
        rewrite Hrun in H |- *. cbn in H. injection H as <- <- <-.
        left. repeat (split; [reflexivity|]). right. right. left. auto.
      * destruct (Hitems (i :: l) [] (run_http_query_list _ _ _ _ _ _ Hm))
          as [(Ht & -> & -> & ->) | [Hc | Hd]].
        -- left. repeat (split; [assumption || reflexivity|]). auto.
        -- right. left. split; [reflexivity|]. exact Hc.
        -- right. right. split; [reflexivity|]. exact Hd.
    + assert (Hrun : run_http_query schema request_method (PList l) query_data
                       false catch
                     = ([], Raise (HttpQueryError 400
                                     "Batch GraphQL requests are not enabled."
                                     None))).
      { unfold run_http_query. rewrite Hm. reflexivity. }
      rewrite Hrun in H |- *. cbn in H. injection H as <- <- <-.
      left. repeat (split; [reflexivity|]). right. left. auto.
  - destruct (Hitems [PDict d] _ (run_http_query_single _ _ _ _ _ _ Hm))
      as [(Ht & -> & -> & ->) | [Hc | Hd]].
    + left. repeat (split; [assumption || reflexivity|]). auto.
    + right. left. split; [reflexivity|]. exact Hc.
    + right. right. split; [reflexivity|]. exact Hd.
Qed.

(** Every [HttpQueryError] that leaves [run_http_query] is one of seven:
    the method error (405, [Allow: GET, POST]) exactly when the method is
    neither ["get"] nor ["post"]; with a supported method a 400 without
    headers for a payload that is neither a list nor a mapping, for a list
    when batching is off, for an empty list, or for variables that are not
    valid JSON; and, only when [catch] is false, an item's missing query
    (400) or, only under ["get"], an item's operation that is not a query
    (405, [Allow: POST]). *)
Theorem http_errors_leaving_run_http_query
    schema request_method payload query_data batch_enabled catch
    status_code message headers :
  outcome (run_http_query schema request_method payload query_data
             batch_enabled catch)
  = Raise (HttpQueryError status_code message headers) ->
  (method_supported request_method = false
   /\ status_code = 405%Z
   /\ message = "GraphQL only supports GET and POST requests."
   /\ headers = Some [("Allow", "GET, POST")])
  \/ (method_supported request_method = true
      /\ status_code = 400%Z /\ headers = None
      /\ ((is_list payload = false /\ is_dict payload = false
           /\ message = ("GraphQL params should be a dict. Received "
                          ++ py_str payload ++ ".")%string)
          \/ (is_list payload = true /\ batch_enabled = false
              /\ message = "Batch GraphQL requests are not enabled.")
          \/ (payload = PList [] /\ batch_enabled = true
              /\ message = "Received an empty list in the batch request.")
          \/ message = "Variables are invalid JSON."
          \/ (catch = false /\ message = "Must provide query string.")))
  \/ (method_supported request_method = true /\ catch = false
      /\ request_method = "get"
      /\ status_code = 405%Z /\ headers = Some [("Allow", "POST")]
      /\ exists op,
           op <> QUERY
           /\ message = ("Can only perform a " ++ value op
                          ++ " operation from a POST request.")%string).
Proof.
  intros H. apply run_http_query_http_error in H
    as [(Hm & _ & Hs & Hmsg & Hh)
       | [(Hm & _ & Hs & Hh & Hmsg)
         | [(Hm & Hc & Hs & Hh & Hmsg) | Hop]]].
  - left. auto.
  - right. left. repeat (split; [assumption|]).
    destruct Hmsg as [Hmsg | [Hmsg | [Hmsg | Hmsg]]]; auto.
  - right. left. repeat (split; [assumption|]). auto 6.
  - right. right. exact Hop.
Qed.

(** With containment, an [HttpQueryError] can only leave [run_http_query]
    before any item is executed: no engine call has been made, and the
    error is the method error or a 400 for the payload shape or for
    variables that are not valid JSON; never the missing-query or the
    disallowed-operation error of an item. *)
Theorem contained_run_raises_before_any_engine_call
    schema request_method payload query_data batch_enabled
    status_code message headers :
  outcome (run_http_query schema request_method payload query_data
             batch_enabled true)
  = Raise (HttpQueryError status_code message headers) ->
  trace (run_http_query schema request_method payload query_data
           batch_enabled true) = []
  /\ ((status_code = 405%Z
       /\ message = "GraphQL only supports GET and POST requests."
       /\ headers = Some [("Allow", "GET, POST")])
      \/ (status_code = 400%Z /\ headers = None
          /\ (message = ("GraphQL params should be a dict. Received "
                          ++ py_str payload ++ ".")%string
              \/ message = "Batch GraphQL requests are not enabled."
              \/ message = "Received an empty list in the batch request."
              \/ message = "Variables are invalid JSON."))).
Proof.
  intros H. apply run_http_query_http_error in H
    as [(_ & Ht & Hs & Hmsg & Hh)
       | [(_ & Ht & Hs & Hh & Hmsg)
         | [(_ & Hc & _) | (_ & Hc & _)]]]; try discriminate.
  - split; [assumption|]. left. auto.
  - split; [assumption|]. right. repeat (split; [assumption|]).
    destruct Hmsg as [(_ & _ & Hmsg) | [(_ & _ & Hmsg) | [(_ & _ & Hmsg) | Hmsg]]];
      auto.
Qed.

(** The fallback never reaches a batch: on a list payload the query data
    has no influence on what [run_http_query] does; and on any payload
    passing no query data or an empty mapping is the same. *)
Theorem batch_ignores_query_data
    schema request_method items payload query_data query_data'
    batch_enabled catch :
  run_http_query schema request_method (PList items) query_data
    batch_enabled catch
  = run_http_query schema request_method (PList items) query_data'
      batch_enabled catch
  /\ run_http_query schema request_method payload None batch_enabled catch
     = run_http_query schema request_method payload (Some []) batch_enabled catch.
Proof. split; reflexivity. Qed.

(** From request to response body: whenever [run_http_query] returns, the
    default encoding of its outcomes succeeds with status 200; for a list
    payload the body is the tuple of one body per parameter tuple, in
    order, [None] standing where execution raised; for a single mapping it
    is the body of that one request. *)
Theorem run_then_encode_without_formatter {R : Type}
    schema request_method payload query_data batch_enabled catch
    responses all_params (encode : pyval -> R) :
  outcome (run_http_query schema request_method payload query_data
             batch_enabled catch) = Ok (responses, all_params) ->
  encode_execution_results responses None (is_list payload) encode
  = Ok (encode
          (if is_list payload
           then PTuple
                  (map (fun params =>
                          spec_format_body format_error_default
                            (item_outcome schema params (request_method =? "get")))
                       all_params)
           else nth 0
                  (map (fun params =>
                          spec_format_body format_error_default
                            (item_outcome schema params (request_method =? "get")))
                       all_params)
                  PNone),
        200%Z).
Proof.
  destruct (method_supported request_method) eqn:Hm.
  2:{ rewrite unsupported_method_raises by assumption. discriminate. }
  destruct (run_http_query_shapes schema request_method payload query_data
              batch_enabled catch Hm)
    as [(message & -> & _) | (items & extra & Hne & ->)]; [discriminate|].
  intros H. apply run_items_ok_inv in H as [Hps HF].
  assert (Hrs : responses
                = map (fun params =>
                         item_outcome schema params (request_method =? "get"))
                      all_params).
  { clear -HF. induction HF as [|p r ps rs Hpr _ IH]; [reflexivity|].
    cbn [map]. rewrite <- IH. f_equal. eapply get_response_ok; eassumption. }
  apply rmap_ok_inv, Forall2_length in Hps.
  destruct all_params as [|p ps].
  { destruct items; [contradiction | discriminate]. }
  subst responses. cbn [map]. rewrite encode_without_formatter.
  cbn [map nth]. now rewrite map_map.
Qed.

Lemma rmap_ext {A B} (f g : A -> completion B) l :
  (forall x, In x l -> f x = g x) -> rmap f l = rmap g l.
Proof.
  induction l as [|x l IH]; intros H; [reflexivity|].
  cbn [rmap]. rewrite (H x (or_introl eq_refl)).
  rewrite IH by (intros y Hy; apply H; now right). reflexivity.
Qed.

Lemma format_with_any_formatter r f g :
  format_execution_result r (Some f) = format_execution_result r (Some g).
Proof.
  destruct r as [er|]; [|reflexivity].
  unfold format_execution_result. destruct (has_errors er); reflexivity.
Qed.

(** A formatter the caller passes is never applied: formatting and encoding
    end the same way whichever formatter is passed. *)
Theorem supplied_formatter_is_never_applied {R : Type}
    execution_results f g is_batch (encode : pyval -> R) :
  encode_execution_results execution_results (Some f) is_batch encode
  = encode_execution_results execution_results (Some g) is_batch encode
  /\ forall r,
       format_execution_result r (Some f) = format_execution_result r (Some g).
Proof.
  split; [|intros r; apply format_with_any_formatter].
  unfold encode_execution_results.
  rewrite (rmap_ext (fun r => format_execution_result r (Some f))
                    (fun r => format_execution_result r (Some g)));
    [reflexivity|].
  intros r _. apply format_with_any_formatter.
Qed.

Lemma format_ok_iff r fe :
  (exists resp, format_execution_result r fe = Ok resp)
  <-> fe = None \/ error_free r.
Proof.
  split.
  - intros [resp H]. destruct fe as [f|]; [|now left]. right.
    destruct r as [er|]; [|exact I]. cbn [error_free].
    destruct (has_errors er) eqn:He; [|reflexivity].
    rewrite format_execution_result_unbound in H by assumption. discriminate.
  - intros [-> | Hr].
    + rewrite format_execution_result_default. eauto.
    + destruct r as [er|].
      * rewrite (format_execution_result_clean er fe format_error_default)
          by exact Hr.
        eauto.
      * rewrite format_execution_result_suppressed. eauto.
Qed.

(** [encode_execution_results] returns exactly when the list of outcomes is
    not empty and either no formatter is passed or no outcome carries
    errors; an empty list raises [ValueError] (the unpacking of [zip]), and
    a formatter passed with an outcome that carries errors raises
    [NameError]. *)
Theorem encode_execution_results_returns_iff {R : Type}
    execution_results fe is_batch (encode : pyval -> R) :
  ((exists body code,
      encode_execution_results execution_results fe is_batch encode
      = Ok (body, code))
   <-> execution_results <> []
       /\ (fe = None \/ Forall error_free execution_results))
  /\ (forall e,
        encode_execution_results execution_results fe is_batch encode = Raise e ->
        (execution_results = []
         /\ e = ValueError "not enough values to unpack (expected 2, got 0)")
        \/ (execution_results <> [] /\ e = NameError "format_errors"
            /\ fe <> None
            /\ exists r, In r execution_results /\ ~ error_free r)).
Proof.
  split; [split|].
  - intros (body & code & H).
    apply encode_execution_results_ok_inv
      in H as (r0 & rest & resp0 & resps & -> & Hfmt & _).
    split; [discriminate|].
    destruct fe as [f|]; [|now left]. right.
    apply rmap_ok_inv in Hfmt. apply Forall_forall. intros r Hin.
    apply In_nth_error in Hin as [i Hi].
    destruct (Forall2_nth_error_l _ _ _ _ _ Hfmt Hi) as (resp & _ & Hr).
    assert (Hok : exists resp, format_execution_result r (Some f) = Ok resp)
      by eauto.
    apply format_ok_iff in Hok as [Hnone | Hfree]; [discriminate | exact Hfree].
  - intros [Hne Hok]. unfold encode_execution_results.
    destruct execution_results as [|r0 rest]; [contradiction|].
    assert (Hall : forall r, In r (r0 :: rest) ->
                     format_execution_result r fe
                     = Ok (mkGraphQLResponse
                             (spec_format_body
                                (match fe with
                                 | Some f => f
                                 | None => format_error_default
                                 end) r) 200)).
    { intros r Hin.
      assert (Hr : exists resp, format_execution_result r fe = Ok resp).
      { apply format_ok_iff. destruct Hok as [-> | Hfree]; [now left|].
        right. rewrite Forall_forall in Hfree. now apply Hfree. }
      destruct Hr as [resp Hr]. rewrite Hr. f_equal.
      now apply format_execution_result_ok_body. }
    rewrite (rmap_all_ok _ _ _ Hall). cbn [rbind map]. eauto.
  - intros e H. unfold encode_execution_results in H.
    destruct (rmap (fun r => format_execution_result r fe) execution_results)
      as [resps|e'] eqn:Hfmt; cbn [rbind] in H.
    + destruct resps as [|resp0 resps]; [|discriminate].
      injection H as <-. left. split; [|reflexivity].
      apply rmap_ok_inv in Hfmt. now inversion Hfmt.
    + injection H as <-. right.
      apply rmap_raise_inv in Hfmt as (r & Hin & Hr).
      pose proof (format_execution_result_raises r fe e' Hr) as ->.
      split; [intros ->; contradiction|]. split; [reflexivity|].
      assert (Hnot : ~ exists resp, format_execution_result r fe = Ok resp).
      { intros [resp Hresp]. congruence. }
      rewrite format_ok_iff in Hnot. split.
      * intros ->. apply Hnot. now left.
      * exists r. split; [assumption|]. intros Hfree. apply Hnot. now right.
Qed.

(** With containment, a single request whose execution raises (no query,
    or a mutation sent with the read-only verb) is answered with the body
    [None] and status 200, whichever formatter is passed: the status and
    the headers of the [HttpQueryError] are dropped. *)
Theorem contained_single_error_encodes_as_null {R : Type}
    schema request_method d query_data batch_enabled params e
    fe (encode : pyval -> R) :
  method_supported request_method = true ->
  get_graphql_params (PDict d)
    (match query_data with Some (b :: r) => b :: r | _ => [] end) = Ok params ->
  outcome (execute_graphql_request schema params (request_method =? "get"))
  = Raise e ->
  run_http_query schema request_method (PDict d) query_data batch_enabled true
  = (trace (execute_graphql_request schema params (request_method =? "get")),
     Ok ([None], [params]))
  /\ encode_execution_results [None] fe false encode = Ok (encode PNone, 200%Z).
Proof.
  intros Hm Hp He. split; [|reflexivity].
  rewrite run_http_query_single by assumption. cbn [catch_class].
  rewrite (run_items_contained schema [PDict d] _ _ [params]).
  - cbn [flat_map map]. rewrite List.app_nil_r.
    unfold item_outcome. now rewrite He.
  - revert Hp. destruct query_data as [[|b r]|]; intros Hp;
      cbv beta iota in Hp; cbn [rmap]; cbv beta iota; now rewrite Hp.
Qed.

Lemma py_or_falsy_or_equal a a' b :
  a = a' \/ (truthy a = false /\ truthy a' = false) -> py_or a b = py_or a' b.
Proof.
  intros [-> | [Ha Ha']]; [reflexivity|]. unfold py_or. now rewrite Ha, Ha'.
Qed.

(** A falsy value in an item is as good as a missing key: two items that,
    for each of [query], [variables] and [operationName], carry the same
    value or both a falsy one ([None] for a missing key, [""], [0], an
    empty list or mapping) yield the same parameters or the same exception,
    the fallback taking over for the falsy ones. *)
Theorem falsy_item_values_are_ignored d d' fallback :
  (forall key,
     In key ["query"; "variables"; "operationName"] ->
     dict_get d key = dict_get d' key
     \/ (truthy (dict_get d key) = false /\ truthy (dict_get d' key) = false)) ->
  get_graphql_params (PDict d) fallback = get_graphql_params (PDict d') fallback.
Proof.
  intros H. unfold get_graphql_params. cbn [py_get rbind].
  rewrite (py_or_falsy_or_equal (dict_get d "query") (dict_get d' "query"))
    by (apply H; cbn; tauto).
  rewrite (py_or_falsy_or_equal (dict_get d "variables") (dict_get d' "variables"))
    by (apply H; cbn; tauto).
  rewrite (py_or_falsy_or_equal (dict_get d "operationName")
             (dict_get d' "operationName"))
    by (apply H; cbn; tauto).
  reflexivity.
Qed.

End CoverageProperties.

Section CoverageWitnesses.
Import Demo.

Lemma execute_is_called_only_witness :
  In (CallExecute tt QUERY PNone PNone)
     (trace (execute_graphql_request tt
               (mkGraphQLParams (PStr "{ __typename }") PNone PNone) true))
  /\ validate (GraphQLEngine := engine) tt QUERY = []
  /\ outcome (execute_graphql_request tt
                (mkGraphQLParams (PStr "{ __typename }") PNone PNone) true)
     = Ok (execute (GraphQLEngine := engine) tt QUERY PNone PNone).
Proof.
  split; [cbn; tauto|].
  destruct (execute_is_called_only_on_valid_permitted_documents
              (E := engine) tt
              (mkGraphQLParams (PStr "{ __typename }") PNone PNone) true
              tt QUERY PNone PNone)
    as (_ & _ & _ & _ & Hval & _ & Hout); [cbn; tauto|].
  split; assumption.
Defined.

Lemma restriction_is_transparent_witness :
  (forall document operation_ast,
     parse (GraphQLEngine := engine) (PStr "{ __typename }") = Parsed document ->
     get_operation_ast (GraphQLEngine := engine) document PNone
     = Some operation_ast ->
     operation (GraphQLEngine := engine) operation_ast = QUERY)
  /\ outcome (execute_graphql_request tt
                (mkGraphQLParams (PStr "{ __typename }") PNone PNone) true)
     = outcome (execute_graphql_request tt
                  (mkGraphQLParams (PStr "{ __typename }") PNone PNone) false).
Proof.
  assert (H : forall document operation_ast,
            parse (GraphQLEngine := engine) (PStr "{ __typename }")
            = Parsed document ->
            get_operation_ast (GraphQLEngine := engine) document PNone
            = Some operation_ast ->
            operation (GraphQLEngine := engine) operation_ast = QUERY).
  { intros document operation_ast [= <-] [= <-]. reflexivity. }
  split; [exact H|].
  exact (restriction_is_transparent_to_queries (E := engine) tt
           (mkGraphQLParams (PStr "{ __typename }") PNone PNone) H).
Defined.

Lemma validation_errors_witness :
  truthy (PStr "subscription { ticks }") = true
  /\ validate (GraphQLEngine := engine) tt SUBSCRIPTION
     = ["Schema is not configured for subscriptions."]
  /\ outcome (execute_graphql_request tt
                (mkGraphQLParams (PStr "subscription { ticks }") PNone PNone)
                false)
     = Ok (mkExecutionResult PNone
             (Some ["Schema is not configured for subscriptions."])).
Proof.
  split; [reflexivity|]. split; [reflexivity|].
  exact (proj1 (validation_errors_are_in_band (E := engine) tt
                  (mkGraphQLParams (PStr "subscription { ticks }") PNone PNone)
                  SUBSCRIPTION "Schema is not configured for subscriptions." []
                  false eq_refl eq_refl eq_refl
                  ltac:(discriminate))).
Defined.

Lemma propagating_run_witness :
  outcome (run_http_query tt "post"
             (PList [PDict [("query", PStr "{ __typename }")];
                     PDict [("query", PStr "bad syntax {")]])
             None true false)
  = Ok ([Some (mkExecutionResult (PDict [("__typename", PStr "Query")]) None);
         Some (mkExecutionResult PNone
                 (Some ["Syntax Error: Unexpected Name."]))],
        [mkGraphQLParams (PStr "{ __typename }") PNone PNone;
         mkGraphQLParams (PStr "bad syntax {") PNone PNone])
  /\ Forall2 (fun params r =>
                exists er,
                  r = Some er
                  /\ outcome (execute_graphql_request tt params ("post" =? "get"))
                     = Ok er)
             [mkGraphQLParams (PStr "{ __typename }") PNone PNone;
              mkGraphQLParams (PStr "bad syntax {") PNone PNone]
             [Some (mkExecutionResult (PDict [("__typename", PStr "Query")]) None);
              Some (mkExecutionResult PNone
                      (Some ["Syntax Error: Unexpected Name."]))].
Proof.
  split; [reflexivity|].
  exact (propagating_run_returns_executed_results (E := engine) (L := pylib)
           tt "post"
           (PList [PDict [("query", PStr "{ __typename }")];
                   PDict [("query", PStr "bad syntax {")]])
           None true _ _ eq_refl).
Defined.

Lemma http_errors_leaving_witness :
  outcome (run_http_query tt "get"
             (PDict [("query", PStr "mutation { bump }")]) None false false)
  = Raise (HttpQueryError 405
             "Can only perform a mutation operation from a POST request."
             (Some [("Allow", "POST")]))
  /\ exists op,
       op <> QUERY
       /\ "Can only perform a mutation operation from a POST request."
          = ("Can only perform a " ++ value op
               ++ " operation from a POST request.")%string.
Proof.
  split; [reflexivity|].
  destruct (http_errors_leaving_run_http_query (E := engine) (L := pylib)
              tt "get" (PDict [("query", PStr "mutation { bump }")])
              None false false _ _ _ eq_refl)
    as [(Hm & _) | [(_ & Hs & _) | (_ & _ & _ & _ & _ & Hop)]].
  - discriminate Hm.
  - discriminate Hs.
  - exact Hop.
Defined.

Lemma contained_run_witness :
  outcome (run_http_query tt "post"
             (PList [PDict [("query", PStr "{ a }")];
                     PDict [("query", PStr "{ b }"); ("variables", PStr "{bad")]])
             None true true)
  = Raise (HttpQueryError 400 "Variables are invalid JSON." None)
  /\ trace (run_http_query tt "post"
              (PList [PDict [("query", PStr "{ a }")];
                      PDict [("query", PStr "{ b }");
                             ("variables", PStr "{bad")]])
              None true true) = [].
Proof.
  assert (H : outcome (run_http_query tt "post"
                         (PList [PDict [("query", PStr "{ a }")];
                                 PDict [("query", PStr "{ b }");
                                        ("variables", PStr "{bad")]])
                         None true true)
              = Raise (HttpQueryError 400 "Variables are invalid JSON." None))
    by (vm_compute; reflexivity).
  split; [exact H|].
  exact (proj1 (contained_run_raises_before_any_engine_call
                  (E := engine) (L := pylib) tt "post" _ None true _ _ _ H)).
Defined.

Lemma run_then_encode_witness :
  outcome (run_http_query tt "post" (PList demo_batch) None true true)
  = Ok ([Some (mkExecutionResult PNone
                 (Some ["Syntax Error: Unexpected Name."]));
         None;
         Some (mkExecutionResult (PDict [("__typename", PStr "Query")]) None)],
        [mkGraphQLParams (PStr "bad syntax {") PNone PNone;
         mkGraphQLParams PNone PNone PNone;
         mkGraphQLParams (PStr "{ __typename }") (PDict []) PNone])
  /\ encode_execution_results
       [Some (mkExecutionResult PNone
                (Some ["Syntax Error: Unexpected Name."]));
        None;
        Some (mkExecutionResult (PDict [("__typename", PStr "Query")]) None)]
       None true (fun body => body)
     = Ok (PTuple
             [PDict [("errors",
                      PList [PDict [("message",
                                     PStr "Syntax Error: Unexpected Name.")]])];
              PNone;
              PDict [("data", PDict [("__typename", PStr "Query")])]],
           200%Z).
Proof.
  split; [reflexivity|].
  exact (run_then_encode_without_formatter (E := engine) (L := pylib)
           tt "post" (PList demo_batch) None true true _ _ (fun body => body)
           eq_refl).
Defined.

Lemma contained_single_error_witness :
  method_supported "get" = true
  /\ run_http_query tt "get" (PDict [("query", PStr "mutation { bump }")])
       None false true
     = ([CallParse (PStr "mutation { bump }");
         CallGetOperationAst MUTATION PNone],
        Ok ([None], [mkGraphQLParams (PStr "mutation { bump }") PNone PNone]))
  /\ encode_execution_results (E := engine) [None] (Some custom_format_error)
       false (fun body => body)
     = Ok (PNone, 200%Z).
Proof.
  split; [reflexivity|].
  exact (contained_single_error_encodes_as_null (E := engine) (L := pylib)
           tt "get" [("query", PStr "mutation { bump }")] None false
           (mkGraphQLParams (PStr "mutation { bump }") PNone PNone)
           (HttpQueryError 405
              "Can only perform a mutation operation from a POST request."
              (Some [("Allow", "POST")]))
           (Some custom_format_error) (fun body => body)
           eq_refl eq_refl eq_refl).
Defined.

Lemma falsy_item_values_witness :
  (forall key,
     In key ["query"; "variables"; "operationName"] ->
     dict_get [("query", PStr ""); ("variables", PDict [])] key
     = dict_get [] key
     \/ (truthy (dict_get [("query", PStr ""); ("variables", PDict [])] key)
         = false
         /\ truthy (dict_get [] key) = false))
  /\ get_graphql_params (PDict [("query", PStr ""); ("variables", PDict [])])
       [("query", PStr "{ __typename }")]
     = get_graphql_params (PDict []) [("query", PStr "{ __typename }")].
Proof.
  assert (H : forall key,
            In key ["query"; "variables"; "operationName"] ->
            dict_get [("query", PStr ""); ("variables", PDict [])] key
            = dict_get [] key
            \/ (truthy (dict_get [("query", PStr ""); ("variables", PDict [])] key)
                = false
                /\ truthy (dict_get [] key) = false)).
  { intros key [<- | [<- | [<- | []]]]; cbn; auto. }
  split; [exact H|].
  exact (falsy_item_values_are_ignored (L := pylib) _ _ _ H).
Defined.

End CoverageWitnesses.
